(** * Token lifecycle and access-control cache of the project-management API

    A shallow embedding of the authentication middleware
    ([auth.middleware.ts]), the project and task access middlewares
    ([project.middleware.ts] and the task middleware), the project and auth
    controllers, the routers and the application that mounts them
    ([app.ts]), over an explicit model of the two stores they talk to:
    the Redis cache and the Mongo collections.

    Conventions.
    - Time is [Z], in milliseconds since the epoch ([Date.now()]); every
      handler call reads the clock once and receives it as [now]. Where
      the handlers of one route are chained for one request ([via],
      [chain]), their readings are taken to coincide.
    - Object ids are the strings that [toString()] yields. The ids kept
      in the datastore (the keys of the collections, [createdBy],
      [members], the [_id] that [authenticate] attaches) are ObjectIds;
      an id taken from the URL or the body is any string, and Mongoose
      throws a CastError when it is asked to query with one that is no
      ObjectId. Ids are compared as strings, with their hexadecimal
      digits in lower case, the form in which ObjectIds print.
    - [createdAt]/[updatedAt] stamps and the fields of the JSON bodies
      that no caller inspects are left out of the records. *)

From Stdlib Require Import ZArith String Ascii List Bool Lia.
From stdpp Require Import base option gmap strings list pretty.

Local Open Scope string_scope.
Local Open Scope list_scope.
Local Open Scope Z_scope.

(** ** Data model *)

(** [TUserRole] of [user.interface.ts]; the schema enum of [user.model.ts]. *)
Inductive TUserRole := admin | manager | member.

#[global] Instance TUserRole_eq_dec : EqDecision TUserRole.
Proof. solve_decision. Defined.

Definition role_name (r : TUserRole) : string :=
  match r with admin => "admin" | manager => "manager" | member => "member" end.

(** A stored user document ([users] collection). *)
Record UserDoc := mkUserDoc {
  ud_id : string;
  ud_username : string;
  ud_email : string;
  ud_password : string;
  ud_role : TUserRole;
  ud_professionRoleType : option string
}.

(** [IUserResponse]: what [authenticate] attaches to the request. *)
Record IUserResponse := mkUserResponse {
  _id : string;
  username : string;
  email : string;
  role : TUserRole;
  professionRoleType : option string
}.

(** A project document: [createdBy] and [members] hold object ids. *)
Record Project := mkProject {
  p_id : string;
  p_name : string;
  p_description : string;
  p_type : string;
  createdBy : string;
  members : list string
}.

(** A task document; [t_project] is the id of its project. *)
Record TaskDoc := mkTask {
  t_id : string;
  t_title : string;
  t_project : string
}.

(** The payload [jwt.verify] and [jwt.decode] hand back. [iat] and [exp]
    are in seconds. *)
Record JwtPayload := mkPayload {
  jp_id : string;
  jp_role : option TUserRole;
  iat : Z;
  exp : Z
}.

(** ** Exceptions

    The error classes the handlers can see. In [jsonwebtoken],
    [TokenExpiredError] and [NotBeforeError] extend [JsonWebTokenError]. *)
Inductive exn :=
| TokenExpiredError
| NotBeforeError
| JsonWebTokenError (msg : string)
| RedisError
| TypeError
| ValidationError
| CastError
| MissingSchemaError (name : string)
| ReferenceError (msg : string)
| Error (msg : string).

Definition instanceof_TokenExpiredError (e : exn) : bool :=
  match e with TokenExpiredError => true | _ => false end.

Definition instanceof_JsonWebTokenError (e : exn) : bool :=
  match e with
  | TokenExpiredError | NotBeforeError | JsonWebTokenError _ => true
  | _ => false
  end.

(** ** The two stores and the effect trace *)

(** What a handler did to the outside world, newest first in [log]. *)
Inductive Effect :=
| DbRead (collection id : string)
| DbWrite (collection id : string)
| CacheGet (key : string)
| CacheSet (key value : string) (EX : Z)
| CacheDel (key : string).

#[global] Instance Effect_eq_dec : EqDecision Effect.
Proof. solve_decision. Defined.

(** A Redis entry: the value and the instant (ms) at which it expires. *)
Record World := mkWorld {
  cache : gmap string (string * Z);
  redis_up : bool;
  projects : gmap string Project;
  tasks : gmap string TaskDoc;
  users : gmap string UserDoc;
  log : list Effect
}.

Definition with_cache (c : gmap string (string * Z)) (w : World) : World :=
  mkWorld c (redis_up w) (projects w) (tasks w) (users w) (log w).

Definition with_projects (p : gmap string Project) (w : World) : World :=
  mkWorld (cache w) (redis_up w) p (tasks w) (users w) (log w).

Definition emit (e : Effect) (w : World) : World :=
  mkWorld (cache w) (redis_up w) (projects w) (tasks w) (users w) (e :: log w).

Definition is_DbRead (e : Effect) : bool :=
  match e with DbRead _ _ => true | _ => false end.

(** Number of datastore reads recorded in a trace. *)
Definition db_reads (l : list Effect) : nat :=
  List.length (List.filter is_DbRead l).

(** ** A state-and-exception monad for the handlers *)

Inductive Result (A : Type) :=
| Ok (a : A)
| Throw (e : exn).
Arguments Ok {A} a.
Arguments Throw {A} e.

Definition M (A : Type) : Type := World -> Result A * World.

Definition ret {A} (a : A) : M A := fun w => (Ok a, w).

Definition throw {A} (e : exn) : M A := fun w => (Throw e, w).

Definition bind {A B} (m : M A) (k : A -> M B) : M B :=
  fun w => match m w with
           | (Ok a, w') => k a w'
           | (Throw e, w') => (Throw e, w')
           end.

Notation "'await' x <- m ; k" := (bind m (fun x => k))
  (at level 10, x name, m at level 100, k at level 200).
Notation "'exec' m ; k" := (bind m (fun _ => k))
  (at level 10, m at level 100, k at level 200).

(** [try { m } catch (error) { h error }] *)
Definition try_catch {A} (m : M A) (h : exn -> A) : World -> A * World :=
  fun w => match m w with
           | (Ok a, w') => (a, w')
           | (Throw e, w') => (h e, w')
           end.

(** ** Redis client

    [get], [set] with [{EX: seconds}] and [del] of node-redis. A command
    issued while the server is unreachable rejects. [del] sends the Redis
    DEL command, which removes the key with exactly the given name: a
    [*] in the name is an ordinary character. *)

Definition live (now : Z) (e : string * Z) : option string :=
  if decide (now < snd e) then Some (fst e) else None.

Definition cache_lookup (w : World) (key : string) (now : Z) : option string :=
  cache w !! key ≫= live now.

Definition redis_get (key : string) (now : Z) : M (option string) :=
  fun w => if redis_up w
           then (Ok (cache_lookup w key now), emit (CacheGet key) w)
           else (Throw RedisError, w).

Definition redis_set (key value : string) (EX : Z) (now : Z) : M unit :=
  fun w => if redis_up w
           then (Ok tt, emit (CacheSet key value EX)
                          (with_cache (<[key := (value, now + EX * 1000)]> (cache w)) w))
           else (Throw RedisError, w).

Definition redis_del (key : string) : M unit :=
  fun w => if redis_up w
           then (Ok tt, emit (CacheDel key) (with_cache (delete key (cache w)) w))
           else (Throw RedisError, w).

(** ** Mongoose models *)

(** Whether Mongoose casts a string to an ObjectId: it does when the
    string is 24 hexadecimal digits. *)
Definition is_hex_digit (c : ascii) : bool :=
  let n := nat_of_ascii c in
  ((48 <=? n) && (n <=? 57) || (65 <=? n) && (n <=? 70)
   || (97 <=? n) && (n <=? 102))%nat.

Definition castsToObjectId (id : string) : bool :=
  (String.length id =? 24)%nat && forallb is_hex_digit (list_ascii_of_string id).

(** [Model.findById(id)] casts [id] to an ObjectId and then queries; a
    string that does not cast makes it throw a CastError, and no query
    is sent. The documents of a collection sit under ObjectIds, so the
    cast can fail only for an id under which the collection holds
    nothing. *)
Definition Project_findById (id : string) : M (option Project) :=
  fun w => match projects w !! id with
           | Some project => (Ok (Some project), emit (DbRead "projects" id) w)
           | None =>
               if castsToObjectId id then (Ok None, emit (DbRead "projects" id) w)
               else (Throw CastError, w)
           end.

Definition User_findById (id : string) : M (option UserDoc) :=
  fun w => match users w !! id with
           | Some user => (Ok (Some user), emit (DbRead "users" id) w)
           | None =>
               if castsToObjectId id then (Ok None, emit (DbRead "users" id) w)
               else (Throw CastError, w)
           end.

(** [Task.findOne({ _id: taskId, project: projectId })]: both ids of the
    filter are cast. *)
Definition Task_findOne (taskId projectId : string) : M (option TaskDoc) :=
  fun w => match
             match tasks w !! taskId with
             | Some t => if decide (t_project t = projectId) then Some t else None
             | None => None
             end
           with
           | Some t => (Ok (Some t), emit (DbRead "tasks" taskId) w)
           | None =>
               if castsToObjectId taskId && castsToObjectId projectId
               then (Ok None, emit (DbRead "tasks" taskId) w)
               else (Throw CastError, w)
           end.

(** The names the models are registered under with [mongoose.model]:
    [user.model.ts], [project.model.ts] and [task.model.ts]. *)
Definition mongoose_modelNames : list string := ["users"; "projects"; "tasks"].

(** The [ref] of the path [project] in [taskSchema]. *)
Definition taskSchema_project_ref : string := "Project".

(** [.populate('project', 'createdBy members')] on a task that has been
    found: Mongoose looks up the model that the [ref] of the path names,
    and throws a MissingSchemaError when no model is registered under
    that name; otherwise it queries for the project the task refers to,
    and a dangling reference populates to null. *)
Definition populate_project (t : TaskDoc) : M (option Project) :=
  if bool_decide (taskSchema_project_ref ∈ mongoose_modelNames) then
    fun w => (Ok (projects w !! t_project t), emit (DbRead "projects" (t_project t)) w)
  else throw (MissingSchemaError taskSchema_project_ref).

(** [project.save()] *)
Definition Project_save (p : Project) : M unit :=
  fun w => (Ok tt, emit (DbWrite "projects" (p_id p))
                     (with_projects (<[p_id p := p]> (projects w)) w)).


(** ** Requests and responses *)

(** The Express request, with the custom properties of
    [custom-request.interface.ts] that the handlers read or write. *)
Record Request := mkRequest {
  method : string;
  path : string;
  header_Authorization : option string;
  params_projectId : string;
  params_taskId : string;
  params_memberId : string;
  body_userId : string;
  body_name : string;
  body_description : string;
  body_type : string;
  user : option IUserResponse;
  token : option string;
  projectDocument : option Project;
  userDocument : option UserDoc;
  userToAdd : option IUserResponse;
  task : option TaskDoc
}.

Definition set_user_token (u : IUserResponse) (t : string) (r : Request) : Request :=
  mkRequest (method r) (path r) (header_Authorization r) (params_projectId r)
    (params_taskId r) (params_memberId r) (body_userId r) (body_name r)
    (body_description r) (body_type r) (Some u) (Some t) (projectDocument r)
    (userDocument r) (userToAdd r) (task r).

Definition set_projectDocument (p : Project) (r : Request) : Request :=
  mkRequest (method r) (path r) (header_Authorization r) (params_projectId r)
    (params_taskId r) (params_memberId r) (body_userId r) (body_name r)
    (body_description r) (body_type r) (user r) (token r) (Some p)
    (userDocument r) (userToAdd r) (task r).

Definition set_userDocument (u : UserDoc) (r : Request) : Request :=
  mkRequest (method r) (path r) (header_Authorization r) (params_projectId r)
    (params_taskId r) (params_memberId r) (body_userId r) (body_name r)
    (body_description r) (body_type r) (user r) (token r) (projectDocument r)
    (Some u) (userToAdd r) (task r).

Definition set_task (t : TaskDoc) (r : Request) : Request :=
  mkRequest (method r) (path r) (header_Authorization r) (params_projectId r)
    (params_taskId r) (params_memberId r) (body_userId r) (body_name r)
    (body_description r) (body_type r) (user r) (token r) (projectDocument r)
    (userDocument r) (userToAdd r) (Some t).

(** The JSON body of a response, as far as callers look at it. *)
Inductive Body :=
| Msg (message : string)
| Data (data : Project)
| MsgData (message : string) (data : Project).

Record Response := mkResponse {
  status : Z;
  body : Body
}.

(** What a middleware does with a request: pass it on, or answer. *)
Inductive Outcome :=
| Next (req : Request)
| Respond (res : Response).

Definition json (st : Z) (message : string) : Response := mkResponse st (Msg message).

(** ** JavaScript helpers *)

(** [`${x}`] for a possibly undefined string. *)
Definition tpl (x : option string) : string := default "undefined" x.

(** [!x] for a possibly undefined string. *)
Definition falsy (x : option string) : bool :=
  match x with
  | None => true
  | Some s => bool_decide (s = "")
  end.

(** [Array.prototype.includes] (Mongoose compares object ids by value). *)
Definition includes {A} `{EqDecision A} (l : list A) (x : A) : bool :=
  bool_decide (x ∈ l).

(** [Array.prototype.some] *)
Definition some {A} (l : list A) (f : A -> bool) : bool := existsb f l.

(** [Array.prototype.join] *)
Fixpoint join (sep : string) (l : list string) : string :=
  match l with
  | [] => ""
  | [x] => x
  | x :: rest => x +:+ sep +:+ join sep rest
  end.

(** [String.prototype.split] with a one-character separator. *)
Fixpoint split (sep : ascii) (s : string) : list string :=
  match s with
  | EmptyString => [""]
  | String c rest =>
      if decide (c = sep) then "" :: split sep rest
      else match split sep rest with
           | h :: t => String c h :: t
           | [] => [String c ""]
           end
  end.

(** ** Access middlewares *)

(** [validateProjectAccess] of [project.middleware.ts]. *)
Definition validateProjectAccess_body (req : Request) (now : Z) : M Outcome :=
  let projectId := params_projectId req in
  let userId := _id <$> user req in
  let cacheKey := "project:" +:+ projectId +:+ ":user:" +:+ tpl userId in
  await cachedAccess <- redis_get cacheKey now;
  if decide (cachedAccess = Some "true") then ret (Next req)
  else if decide (cachedAccess = Some "false") then
    ret (Respond (json 403 "Access denied to project"))
  else
    await project <- Project_findById projectId;
    match project with
    | None => ret (Respond (json 404 "Project not found"))
    | Some project =>
        (* [new ObjectId(undefined)] is a fresh id, member of nothing *)
        let hasAccess := from_option (includes (members project)) false userId in
        exec redis_set cacheKey (if hasAccess then "true" else "false") 3600 now;
        if negb hasAccess then ret (Respond (json 403 "Access denied to project"))
        else ret (Next (set_projectDocument project req))
    end.

Definition validateProjectAccess (req : Request) (now : Z) : World -> Outcome * World :=
  try_catch (validateProjectAccess_body req now)
    (fun _ => Respond (json 500 "Error validating project access")).

(** [validateTaskAccess] of the task middleware. *)
Definition validateTaskAccess_body (req : Request) (now : Z) : M Outcome :=
  let taskId := params_taskId req in
  let projectId := params_projectId req in
  let userId := _id <$> user req in
  if falsy userId then ret (Respond (json 401 "Unauthorized"))
  else
    let cacheKey := "task:" +:+ taskId +:+ ":user:" +:+ tpl userId in
    await cachedAccess <- redis_get cacheKey now;
    if decide (cachedAccess = Some "true") then ret (Next req)
    else if decide (cachedAccess = Some "false") then
      ret (Respond (json 403 "Access denied to task"))
    else
      await task <- Task_findOne taskId projectId;
      match task with
      | None => ret (Respond (json 404 "Task not found"))
      | Some task =>
          await task_project <- populate_project task;
          match task_project with
          | None => throw TypeError
          | Some task_project =>
              let hasAccess :=
                bool_decide (createdBy task_project = tpl userId)
                || some (members task_project)
                        (fun member => bool_decide (member = tpl userId)) in
              exec redis_set cacheKey (if hasAccess then "true" else "false") 3600 now;
              if negb hasAccess then ret (Respond (json 403 "Access denied to task"))
              else ret (Next (set_task task req))
          end
      end.

Definition validateTaskAccess (req : Request) (now : Z) : World -> Outcome * World :=
  try_catch (validateTaskAccess_body req now)
    (fun _ => Respond (json 500 "Error validating task access")).

(** The two kinds of resource an access decision is cached for. *)
Inductive ResourceType := project_resource | task_resource.

Definition check (rt : ResourceType) : Request -> Z -> World -> Outcome * World :=
  match rt with
  | project_resource => validateProjectAccess
  | task_resource => validateTaskAccess
  end.

(** The decision a middleware outcome stands for: passing the request on
    allows, a 403 denies; any other answer is no decision. *)
Inductive AccessDecision := allow | deny.

Definition decision_of (o : Outcome) : option AccessDecision :=
  match o with
  | Next _ => Some allow
  | Respond r => if status r =? 403 then Some deny else None
  end.

(** ** Role authorization *)

(** [authorize(allowedRoles)] of [auth.middleware.ts]. *)
Definition authorize (allowedRoles : list TUserRole) (req : Request) : Outcome :=
  match user req with
  | None => Respond (json 403 "Authentication required")
  | Some u =>
      if negb (includes allowedRoles (role u)) then
        Respond (json 403 ("Insufficient permissions. Required role: "
                           +:+ join " or " (role_name <$> allowedRoles)))
      else Next req
  end.

(** ** Project middlewares and controllers *)

(** [validateProjectOwner] of [project.middleware.ts]. *)
Definition validateProjectOwner_body (req : Request) : M Outcome :=
  let projectId := params_projectId req in
  let userId := _id <$> user req in
  await project <- Project_findById projectId;
  match project with
  | None => ret (Respond (json 404 "Project not found"))
  | Some project =>
      if negb (bool_decide (Some (createdBy project) = userId)) then
        ret (Respond (json 403 "Only project owner can perform this action"))
      else ret (Next (set_projectDocument project req))
  end.

Definition validateProjectOwner (req : Request) (now : Z) : World -> Outcome * World :=
  try_catch (validateProjectOwner_body req)
    (fun _ => Respond (json 500 "Error validating project ownership")).

(** [validateProjectMember] of [project.middleware.ts]. It leaves the user
    to add in [req.userDocument]. *)
Definition validateProjectMember_body (req : Request) : M Outcome :=
  let userId := body_userId req in
  let projectId := params_projectId req in
  let currentUser := user req in
  await userToAdd <- User_findById userId;
  match userToAdd with
  | None =>
      ret (Respond (json 400 "Invalid user. Only members can be added to projects"))
  | Some userToAdd =>
      if negb (bool_decide (ud_role userToAdd = member)) then
        ret (Respond (json 400 "Invalid user. Only members can be added to projects"))
      else
        await project <- Project_findById projectId;
        match project with
        | None => ret (Respond (json 404 "Project not found"))
        | Some project =>
            if negb (bool_decide (Some (createdBy project) = (_id <$> currentUser)))
               && negb (bool_decide ((role <$> currentUser) = Some admin))
            then ret (Respond (json 403 "Only project owner or admin can add members"))
            else if includes (members project) userId
            then ret (Respond (json 400 "User is already a project member"))
            else ret (Next (set_userDocument userToAdd (set_projectDocument project req)))
        end
  end.

Definition validateProjectMember (req : Request) (now : Z) : World -> Outcome * World :=
  try_catch (validateProjectMember_body req)
    (fun _ => Respond (json 500 "Error validating project member")).

(** The [enum] of the path [type] in [projectSchema] ([project.model.ts]). *)
Definition projectSchema_type_enum : list string := ["frontend"; "backend"; "ui/ux"].

(** The validators of [projectSchema] on the fields a request supplies:
    [name] is required, and a required string must not be empty; [type]
    is required and must be one of the [enum]. An absent body field is
    the empty string. *)
Definition projectSchema_accepts (name type : string) : bool :=
  negb (bool_decide (name = "")) && negb (bool_decide (type = ""))
  && includes projectSchema_type_enum type.

(** [new Project({...})], with the validation that [save()] runs on the
    new document before it writes anything; [createdBy] is required as
    well. Nothing happens between the construction and the save, so the
    ValidationError is raised here. The fresh object id Mongoose draws
    is the parameter [newId]. *)
Definition new_Project (newId name description type : string)
    (createdBy : option string) : M Project :=
  match createdBy with
  | Some c =>
      if negb (projectSchema_accepts name type) then throw ValidationError
      else ret (mkProject newId name description type c [c])
  | None => throw ValidationError
  end.

(** [createProject] of [project.controller.ts]. *)
Definition createProject_body (newId : string) (req : Request) : M Response :=
  let createdBy := _id <$> user req in
  await project <- new_Project newId (body_name req) (body_description req)
                     (body_type req) createdBy;
  exec Project_save project;
  exec redis_del "projects:*";
  ret (mkResponse 201 (Data project)).

Definition createProject (newId : string) (req : Request) (now : Z)
    : World -> Response * World :=
  try_catch (createProject_body newId req)
    (fun _ => json 500 "Failed to create project").

(** [project.members.push(id)] *)
Definition push_member (id : string) (p : Project) : Project :=
  mkProject (p_id p) (p_name p) (p_description p) (p_type p) (createdBy p)
    (members p ++ [id]).

(** [project.members = project.members.filter(...)] *)
Definition filter_members (f : string -> bool) (p : Project) : Project :=
  mkProject (p_id p) (p_name p) (p_description p) (p_type p) (createdBy p)
    (List.filter f (members p)).

(** [addProjectMember] of [project.controller.ts]. It reads the user to
    add from [req.userToAdd]. *)
Definition addProjectMember_body (req : Request) : M Response :=
  match projectDocument req, userToAdd req with
  | Some project, Some userToAdd =>
      let userToAddId := _id userToAdd in
      let isMemberExists :=
        some (members project) (fun member => bool_decide (member = userToAddId)) in
      await project <-
        (if negb isMemberExists then
           let project := push_member userToAddId project in
           exec Project_save project; ret project
         else ret project);
      exec redis_del ("projects:user:" +:+ tpl (_id <$> user req));
      exec redis_del ("project:" +:+ p_id project +:+ ":*");
      exec redis_del ("projects:user:" +:+ _id userToAdd);
      ret (mkResponse 200 (MsgData "Member added successfully" project))
  | _, _ => ret (json 400 "Invalid project or user")
  end.

Definition addProjectMember (req : Request) (now : Z) : World -> Response * World :=
  try_catch (addProjectMember_body req)
    (fun _ => json 500 "Failed to add member to project").

(** [removeProjectMember] of [project.controller.ts]. *)
Definition removeProjectMember_body (req : Request) : M Response :=
  match projectDocument req with
  | None => ret (json 404 "Project not found")
  | Some project =>
      let memberId := params_memberId req in
      let project :=
        filter_members (fun member => negb (bool_decide (member = memberId))) project in
      exec Project_save project;
      exec redis_del ("projects:user:" +:+ tpl (_id <$> user req));
      exec redis_del ("project:" +:+ p_id project +:+ ":*");
      exec redis_del ("projects:user:" +:+ memberId);
      ret (mkResponse 200 (MsgData "Member removed successfully" project))
  end.

Definition removeProjectMember (req : Request) (now : Z) : World -> Response * World :=
  try_catch (removeProjectMember_body req)
    (fun _ => json 500 "Failed to remove member from project").

(** A route: middlewares in order, then the controller. *)
Definition Middleware := Request -> Z -> World -> Outcome * World.
Definition Controller := Request -> Z -> World -> Response * World.

Definition via (m : Middleware) (h : Controller) : Controller :=
  fun req now w =>
    match m req now w with
    | (Next req', w') => h req' now w'
    | (Respond r, w') => (r, w')
    end.

(** [router.post('/:projectId/members', validateProjectAccess,
    validateProjectMember, addProjectMember)] of [project.route.ts]. *)
Definition post_project_members : Controller :=
  via validateProjectAccess (via validateProjectMember addProjectMember).

(** [router.delete('/:projectId/members/:memberId', validateProjectAccess,
    validateProjectOwner, removeProjectMember)] *)
Definition delete_project_member : Controller :=
  via validateProjectAccess (via validateProjectOwner removeProjectMember).

(** ** Tokens *)

(** The [jsonwebtoken] library, as the handlers use it. [jwt_sign payload
    secret expiresIn now] signs a payload ([_id] and, for access tokens,
    [role]) that expires [expiresIn] seconds after [now]; [jwt_verify
    token secret now] either throws or yields the payload; [jwt_decode]
    reads the payload without verifying, and gives [None] (null) on a
    string that is no token. *)
Record Jsonwebtoken := mkJwt {
  jwt_sign : string * option TUserRole -> string -> Z -> Z -> string;
  jwt_verify : string -> string -> Z -> exn + JwtPayload;
  jwt_decode : string -> option JwtPayload
}.

(** [process.env] *)
Record Env := mkEnv {
  JWT_SECRET : string;
  JWT_REFRESH_SECRET : string
}.

(** The token pair [generateAuthTokens] returns. *)
Record AuthTokens := mkAuthTokens {
  accessToken : string;
  refreshToken : string
}.

Definition toResponseUser (u : UserDoc) : IUserResponse :=
  mkUserResponse (ud_id u) (ud_username u) (ud_email u) (ud_role u)
    (ud_professionRoleType u).

Section Auth.
Context (jwt : Jsonwebtoken) (env : Env).

Definition lift_throwing {A} (r : exn + A) : M A :=
  match r with
  | inl e => throw e
  | inr a => ret a
  end.

(** [authenticate] of [auth.middleware.ts]. *)
Definition authenticate_body (req : Request) (now : Z) : M Outcome :=
  match header_Authorization req with
  | Some authHeader =>
      if negb (String.prefix "Bearer " authHeader) then
        ret (Respond (json 401 "Authorization header with Bearer token required"))
      else
        let token := split " "%char authHeader !! 1%nat in
        if falsy token then ret (Respond (json 401 "Authentication token missing"))
        else
          let token := tpl token in
          await isBlacklisted <- redis_get ("blacklist:" +:+ token) now;
          if negb (falsy isBlacklisted) then
            ret (Respond (json 401 "Session expired. Please login again"))
          else
            await decoded <- lift_throwing (jwt_verify jwt token (JWT_SECRET env) now);
            await user <- User_findById (jp_id decoded);
            match user with
            | None => ret (Respond (json 401 "User account not found"))
            | Some user => ret (Next (set_user_token (toResponseUser user) token req))
            end
  | None => ret (Respond (json 401 "Authorization header with Bearer token required"))
  end.

Definition authenticate_catch (error : exn) : Outcome :=
  if instanceof_TokenExpiredError error then
    Respond (json 401 "Session expired. Please login again")
  else if instanceof_JsonWebTokenError error then
    Respond (json 401 "Invalid authentication token")
  else Respond (json 500 "Authentication failed").

Definition authenticate (req : Request) (now : Z) : World -> Outcome * World :=
  try_catch (authenticate_body req now) authenticate_catch.

(** [generateAuthTokens] of [auth.middleware.ts]. *)
Definition generateAuthTokens (user : UserDoc) (now : Z) : M AuthTokens :=
  if bool_decide (ud_id user = "") then
    throw (Error "User ID is required for token generation")
  else
    let accessToken :=
      jwt_sign jwt (ud_id user, Some (ud_role user)) (JWT_SECRET env) (15 * 60) now in
    let refreshToken :=
      jwt_sign jwt (ud_id user, None) (JWT_REFRESH_SECRET env) (7 * 24 * 60 * 60) now in
    exec redis_set ("refresh:" +:+ ud_id user) refreshToken (7 * 24 * 60 * 60) now;
    ret (mkAuthTokens accessToken refreshToken).

(** [logout] of [auth.controller.ts]. *)
Definition logout_body (req : Request) (now : Z) : M Response :=
  match token req, user req with
  | Some token, Some user =>
      if bool_decide (token = "") then ret (json 401 "Not authenticated")
      else
        match jwt_decode jwt token with
        | None => throw TypeError
        | Some decoded =>
            let expiresIn := exp decoded - now / 1000 in
            exec (if decide (expiresIn > 0)
                  then redis_set ("blacklist:" +:+ token) "logged out" expiresIn now
                  else ret tt);
            exec redis_del ("refresh:" +:+ _id user);
            exec redis_del ("user:" +:+ _id user);
            ret (json 200 "Logged out successfully")
        end
  | _, _ => ret (json 401 "Not authenticated")
  end.

Definition logout (req : Request) (now : Z) : World -> Response * World :=
  try_catch (logout_body req now) (fun _ => json 500 "Failed to logout").

(** [router.post('/logout', authenticate, logout)] *)
Definition post_logout : Controller := via authenticate logout.
End Auth.

(** ** The answer to an unrouted request *)

(** [notFoundHandler] of [not-found.middleware.ts]: the answer to a
    request no router has taken. *)
Definition notFoundHandler (req : Request) : Response :=
  json 404 ("Route " +:+ method req +:+ " " +:+ path req +:+ " not found").

(** ** A concrete deployment

    One manager, the owner of one project, one member who is not (yet)
    in the project, and a task of the project. The clock stands at
    [now0]. *)
Module Scenario.

(** Object ids, as their 24 hexadecimal digits. *)
Definition owner_id : string := "650000000000000000000001".
Definition subject_id : string := "650000000000000000000002".
Definition project_id : string := "65000000000000000000000a".
Definition task_id : string := "65000000000000000000000b".
Definition new_project_id : string := "65000000000000000000000c".

Definition owner_doc : UserDoc :=
  mkUserDoc owner_id "olga" "olga@example.org" "hash-o1" manager None.

Definition member_doc : UserDoc :=
  mkUserDoc subject_id "uma" "uma@example.org" "hash-u1" member (Some "backend").

Definition owner : IUserResponse := toResponseUser owner_doc.
Definition subject : IUserResponse := toResponseUser member_doc.

Definition p1 : Project := mkProject project_id "Apollo" "" "backend" owner_id [owner_id].

(** [p1] after its owner has removed themselves from the member list. *)
Definition p1_ownerless : Project := mkProject project_id "Apollo" "" "backend" owner_id [].

Definition t1 : TaskDoc := mkTask task_id "Write tests" project_id.

Definition now0 : Z := 1700000000000.

Definition world0 : World :=
  mkWorld ∅ true {[ project_id := p1 ]} {[ task_id := t1 ]}
    {[ owner_id := owner_doc; subject_id := member_doc ]} [].

(** The same deployment while Redis is unreachable. *)
Definition world_down : World :=
  mkWorld ∅ false {[ project_id := p1 ]} {[ task_id := t1 ]}
    {[ owner_id := owner_doc; subject_id := member_doc ]} [].

Definition request (m p : string) (u : option IUserResponse) : Request :=
  mkRequest m p None project_id task_id "" "" "" "" "" u None None None None None.

(** [GET /projects/:projectId] and [GET /projects/:projectId/tasks/:taskId]
    for [p1] and [t1], by a given user. *)
Definition get_project (u : IUserResponse) : Request :=
  request "GET" ("/api/projects/" +:+ project_id) (Some u).

Definition get_task (u : IUserResponse) : Request :=
  request "GET" ("/api/projects/" +:+ project_id +:+ "/tasks/" +:+ task_id) (Some u).

(** The deployment after the owner has left the member list of [p1]. *)
Definition world_ownerless : World :=
  mkWorld ∅ true {[ project_id := p1_ownerless ]} {[ task_id := t1 ]}
    {[ owner_id := owner_doc; subject_id := member_doc ]} [].

(** [DELETE /projects/:projectId/members/:memberId] by the owner, naming
    the owner. *)
Definition remove_owner : Request :=
  mkRequest "DELETE"
    ("/api/projects/" +:+ project_id +:+ "/members/" +:+ owner_id)
    None project_id "" owner_id "" "" "" ""
    (Some owner) None None None None None.


(** The same request as [addProjectMember] expects to find it: the
    project in [req.projectDocument], the user in [req.userToAdd]. *)
Definition add_subject_prepared : Request :=
  mkRequest "POST" ("/api/projects/" +:+ project_id +:+ "/members")
    None project_id "" "" subject_id "" "" ""
    (Some owner) None (Some p1) None (Some subject) None.

(** [POST /projects] by the owner. *)
Definition create_project : Request :=
  mkRequest "POST" "/api/projects" None "" "" "" "" "Gemini" "" "frontend"
    (Some owner) None None None None None.

(** A request nobody has authenticated. *)
Definition anonymous : Request :=
  request "POST" ("/api/projects/" +:+ project_id +:+ "/tasks") None.

(** The deployment after the member has asked for [p1] and been denied. *)
Definition world_denied : World :=
  snd (validateProjectAccess (get_project subject) now0 world0).

(** The [jsonwebtoken] library on the tokens of this deployment, all
    issued to the member at [now0]: a good access token, one that expired a
    minute before [now0], one signed with another secret, and the
    refresh token. Any other string is no token. *)
Definition issued : Z := 1700000000.

Definition access_token : string := "eyJh.acc.s1g".
Definition expired_token : string := "eyJh.old.s1g".
Definition forged_token : string := "eyJh.acc.bad".
Definition refresh_token : string := "eyJh.ref.s1g".

Definition decode (tok : string) : option JwtPayload :=
  if bool_decide (tok = access_token) then
    Some (mkPayload subject_id (Some member) issued (issued + 15 * 60))
  else if bool_decide (tok = expired_token) then
    Some (mkPayload subject_id (Some member) (issued - 960) (issued - 60))
  else if bool_decide (tok = forged_token) then
    Some (mkPayload subject_id (Some admin) issued (issued + 15 * 60))
  else if bool_decide (tok = refresh_token) then
    Some (mkPayload subject_id None issued (issued + 7 * 24 * 60 * 60))
  else None.

Definition verify (tok secret : string) (now : Z) : exn + JwtPayload :=
  match decode tok with
  | None => inl (JsonWebTokenError "jwt malformed")
  | Some p =>
      if bool_decide (tok = forged_token)
         || bool_decide (tok = refresh_token) && negb (bool_decide (secret = "refresh-secret"))
         || negb (bool_decide (tok = refresh_token)) && negb (bool_decide (secret = "secret"))
      then inl (JsonWebTokenError "invalid signature")
      else if exp p <=? now / 1000 then inl TokenExpiredError
      else inr p
  end.

Definition sign (payload : string * option TUserRole) (secret : string)
    (expiresIn now : Z) : string :=
  if bool_decide (payload.1 = subject_id) then
    match payload.2 with
    | Some _ => access_token
    | None => refresh_token
    end
  else "eyJh.any.s1g".

Definition jwt : Jsonwebtoken := mkJwt sign verify decode.

Definition env : Env := mkEnv "secret" "refresh-secret".

(** A request that presents [tok] as bearer token. *)
Definition bearer (m p tok : string) : Request :=
  mkRequest m p (Some ("Bearer " +:+ tok)) "" "" "" "" "" "" "" None None None None None None.

(** [POST /auth/logout] of the member, as [authenticate] hands it on. *)
Definition logout_request : Request :=
  mkRequest "POST" "/api/auth/logout" (Some ("Bearer " +:+ access_token))
    "" "" "" "" "" "" "" (Some subject) (Some access_token) None None None None.

(** The deployment after the member has logged in at [now0]. *)
Definition world_logged_in : World :=
  snd (generateAuthTokens jwt env member_doc now0 world0).

(** The deployment after the member has then logged out, a second later. *)
Definition world_logged_out : World :=
  snd (logout jwt logout_request (now0 + 1000) world_logged_in).

(** [POST /auth/refresh-token], presenting the refresh token. *)
Definition refresh_request : Request :=
  bearer "POST" "/api/auth/refresh-token" refresh_token.
End Scenario.

(** ** The cache keys of the access middlewares *)

Definition project_cacheKey (req : Request) : string :=
  "project:" +:+ params_projectId req +:+ ":user:" +:+ tpl (_id <$> user req).

Definition task_cacheKey (req : Request) : string :=
  "task:" +:+ params_taskId req +:+ ":user:" +:+ tpl (_id <$> user req).

Definition cacheKey (rt : ResourceType) (req : Request) : string :=
  match rt with
  | project_resource => project_cacheKey req
  | task_resource => task_cacheKey req
  end.

(** [Task.findOne] with its filter, as a pure lookup. *)
Definition find_task (w : World) (taskId projectId : string) : option TaskDoc :=
  match tasks w !! taskId with
  | Some t => if decide (t_project t = projectId) then Some t else None
  | None => None
  end.

(** The sentinel stored for a decision. *)
Definition sentinel (hasAccess : bool) : string :=
  if hasAccess then "true" else "false".

(** The world after a miss has been resolved and its sentinel stored. *)
Definition stored (key : string) (hasAccess : bool) (now : Z) (w : World) : World :=
  emit (CacheSet key (sentinel hasAccess) 3600)
    (with_cache (<[key := (sentinel hasAccess, now + 3600 * 1000)]> (cache w)) w).

(** ** Runs of the access check *)

Definition denied_message (rt : ResourceType) : string :=
  match rt with
  | project_resource => "Access denied to project"
  | task_resource => "Access denied to task"
  end.

Definition failure_message (rt : ResourceType) : string :=
  match rt with
  | project_resource => "Error validating project access"
  | task_resource => "Error validating task access"
  end.

Definition decision_outcome (rt : ResourceType) (req : Request) (b : bool) : Outcome :=
  if b then Next req else Respond (json 403 (denied_message rt)).

Definition to_decision (b : bool) : AccessDecision := if b then allow else deny.

(** [emits evs w]: the world after the events [evs] (newest first) have
    been recorded on top of [w]. *)
Definition emits (evs : list Effect) (w : World) : World :=
  mkWorld (cache w) (redis_up w) (projects w) (tasks w) (users w) (evs ++ log w).

(** Every way a run of the access check can end. *)
Inductive check_run (rt : ResourceType) (req : Request) (now : Z) (w : World)
    : Outcome * World -> Prop :=
| run_unauthorized :
    rt = task_resource ->
    falsy (_id <$> user req) = true ->
    check_run rt req now w (Respond (json 401 "Unauthorized"), w)
| run_cache_down :
    (rt = task_resource -> falsy (_id <$> user req) = false) ->
    redis_up w = false ->
    check_run rt req now w (Respond (json 500 (failure_message rt)), w)
| run_hit b :
    (rt = task_resource -> falsy (_id <$> user req) = false) ->
    redis_up w = true ->
    cache_lookup w (cacheKey rt req) now = Some (sentinel b) ->
    check_run rt req now w
      (decision_outcome rt req b, emits [CacheGet (cacheKey rt req)] w)
| run_miss b req' reads :
    rt = project_resource ->
    redis_up w = true ->
    cache_lookup w (cacheKey rt req) now <> Some "true" ->
    cache_lookup w (cacheKey rt req) now <> Some "false" ->
    reads <> [] ->
    forallb is_DbRead reads = true ->
    check_run rt req now w
      (decision_outcome rt req' b,
       stored (cacheKey rt req) b now (emits (reads ++ [CacheGet (cacheKey rt req)]) w))
| run_unresolved res reads :
    (rt = task_resource -> falsy (_id <$> user req) = false) ->
    redis_up w = true ->
    cache_lookup w (cacheKey rt req) now <> Some "true" ->
    cache_lookup w (cacheKey rt req) now <> Some "false" ->
    forallb is_DbRead reads = true ->
    status res = 404 \/ status res = 500 ->
    check_run rt req now w
      (Respond res, emits (reads ++ [CacheGet (cacheKey rt req)]) w).


(** The [set] commands of a trace: key, value and [EX]. *)
Definition cache_writes (evs : list Effect) : list (string * string * Z) :=
  omap (fun e => match e with
                 | CacheSet k v ex => Some (k, v, ex)
                 | _ => None
                 end) evs.

(** ** Redis connection *)

(** [reconnectStrategy] of [redis.config.ts]: the pause before the next
    reconnection attempt, in milliseconds, or the error that ends them. *)
Definition reconnectStrategy (retries : Z) : exn + Z :=
  if retries >? 5 then inl (Error "Connection failed")
  else inr (Z.min (retries * 100) 5000).

(** ** Project types and the creation route *)

(** [Object.values(ProjectType)] and [Object.values(ProjectStatus)] of
    [project.interface.ts]. *)
Definition ProjectType_values : list string := ["frontend"; "backend"; "ui/ux"].
Definition ProjectStatus_values : list string := ["active"; "archived"; "deleted"].

Definition isProjectType (type : string) : bool := includes ProjectType_values type.
Definition isProjectStatus (status : string) : bool := includes ProjectStatus_values status.

(** [validateProjectCreation] of [project.middleware.ts]. *)
Definition validateProjectCreation (req : Request) : Outcome :=
  match user req with
  | Some user =>
      if negb (bool_decide (role user = admin)) && negb (bool_decide (role user = manager))
      then Respond (json 403 "Only admins and managers can create projects")
      else Next req
  | None => Respond (json 403 "Only admins and managers can create projects")
  end.

(** [validateProjectType] of [project.middleware.ts]; an absent [type]
    is the empty string. *)
Definition validateProjectType (req : Request) : Outcome :=
  let validTypes := ["frontend"; "backend"; "ui/ux"] in
  let type := body_type req in
  if bool_decide (type = "") || negb (includes validTypes type) then
    Respond (json 400 "Invalid project type. Must be one of: frontend, backend, ui/ux")
  else Next req.

(** A middleware that touches neither store. *)
Definition stateless (f : Request -> Outcome) : Middleware :=
  fun req _ w => (f req, w).

(** [router.post('/', validateProjectCreation, validateProjectType,
    createProject)] of [project.route.ts]. *)
Definition post_projects (newId : string) : Controller :=
  via (stateless validateProjectCreation)
    (via (stateless validateProjectType) (createProject newId)).

(** ** Reading a project *)

Section ReadProject.
(** [getProjectById] populates the creator and the members of the
    document and hands it to [toProjectResponse]. Which fields a
    populated user carries, and so whether [toProjectResponse] returns
    or throws on it, is decided by Mongoose; the outcome of that part, in
    a given datastore, is the parameter [populated_response]. *)
Context (populated_response : Project -> World -> exn + Project).

(** [project.populate('createdBy', ...)], [project.populate('members',
    ...)] and [toProjectResponse(project)]: one query on the users for
    each [populate]. *)
Definition populate_and_respond (project : Project) : M Project :=
  fun w =>
    let w' := emit (DbRead "users" (join "," (members project)))
                (emit (DbRead "users" (createdBy project)) w) in
    match populated_response project w with
    | inr data => (Ok data, w')
    | inl error => (Throw error, w')
    end.

(** [getProjectById] of [project.controller.ts]. *)
Definition getProjectById_body (req : Request) : M Response :=
  match projectDocument req with
  | None => ret (json 404 "Project not found")
  | Some project =>
      await data <- populate_and_respond project;
      ret (mkResponse 200 (Data data))
  end.

Definition getProjectById (req : Request) (now : Z) : World -> Response * World :=
  try_catch (getProjectById_body req) (fun _ => json 500 "Failed to fetch project").

(** [router.get('/:projectId', validateProjectAccess, getProjectById)] *)
Definition get_project_by_id : Controller := via validateProjectAccess getProjectById.
End ReadProject.

(** ** Errors *)

(** [AppError] of [app-error.ts]. *)
Record AppError := mkAppError {
  ae_message : string;
  statusCode : Z;
  ae_status : string;
  isOperational : bool
}.

(** [new AppError(message, statusCode)] *)
Definition new_AppError (message : string) (statusCode : Z) : AppError :=
  mkAppError message statusCode
    (if String.prefix "4" (pretty statusCode) then "fail" else "error") true.

Definition createError (message : string) (statusCode : Z) : AppError :=
  new_AppError message statusCode.

(** The [Errors] table of [app-error.ts], each with its default message. *)
Definition Errors_BadRequest : AppError := createError "Bad request" 400.
Definition Errors_Unauthorized : AppError := createError "Unauthorized" 401.
Definition Errors_Forbidden : AppError := createError "Forbidden" 403.
Definition Errors_NotFound : AppError := createError "Not found" 404.
Definition Errors_Conflict : AppError := createError "Conflict" 409.
Definition Errors_InternalServerError : AppError :=
  createError "Internal server error" 500.

(** What reaches the error handler: an [AppError], or any other [Error]
    with its message; both carry a stack. *)
Inductive JsError :=
| IsAppError (e : AppError) (stack : string)
| OtherError (message stack : string).

(** The body the error handler sends: [success] is always false. *)
Record ErrorBody := mkErrorBody {
  eb_message : string;
  eb_stack : option string
}.

(** [errorHandler] of [error.middleware.ts]; [production] stands for
    [process.env.NODE_ENV === 'production']. *)
Definition errorHandler (production : bool) (err : JsError) : Z * ErrorBody :=
  match err with
  | IsAppError e stack =>
      (statusCode e,
       mkErrorBody (ae_message e) (if negb production then Some stack else None))
  | OtherError _ stack =>
      (500,
       mkErrorBody "Internal server error" (if negb production then Some stack else None))
  end.

(** ** Login *)

(** What the login controller takes from outside: [bcrypt.compare] and
    [JSON.stringify] on a user response. *)
Record AuthLibs := mkAuthLibs {
  bcrypt_compare : string -> string -> bool;
  JSON_stringify : IUserResponse -> string
}.

(** The values that [auth.controller.ts] has in scope when it runs: its
    imports, the interfaces among them being erased when the file is
    compiled. Node has no global [Document]. *)
Definition auth_controller_scope : list string :=
  ["jwt"; "bcrypt"; "User"; "generateAuthTokens"; "redisClient"; "config"].

(** [toUserResponse] of [auth.controller.ts]. Its first step is the test
    [user instanceof Document]; evaluating a name that is bound to
    nothing throws a ReferenceError. *)
Definition toUserResponse (user : UserDoc) : exn + IUserResponse :=
  if bool_decide ("Document" ∈ auth_controller_scope) then inr (toResponseUser user)
  else inl (ReferenceError "Document is not defined").

(** [req.body] of the login route; an absent field is the empty string. *)
Record LoginBody := mkLoginBody {
  lb_email : string;
  lb_password : string
}.

Inductive AuthBody :=
| AuthMsg (message : string)
| AuthSession (user : IUserResponse) (tokens : AuthTokens).

Record AuthResponse := mkAuthResponse {
  auth_status : Z;
  auth_body : AuthBody
}.

(** The user with a given email, if any ([email] is unique in the schema
    of [user.model.ts]). *)
Definition find_user_by_email (w : World) (email : string) : option UserDoc :=
  (fun r => r.2.2) <$>
    list_find (fun kv => ud_email kv.2 = email) (map_to_list (users w)).

(** [User.findOne({ email }).select('+password')] *)
Definition User_findOne_email (email : string) : M (option UserDoc) :=
  fun w => (Ok (find_user_by_email w email), emit (DbRead "users" email) w).

(** [config.redis.ttl.user] of [config.ts] *)
Definition config_redis_ttl_user : Z := 3600.

Section Login.
Context (jwt : Jsonwebtoken) (env : Env) (libs : AuthLibs).

(** [login] of [auth.controller.ts]. *)
Definition login_body (body : LoginBody) (now : Z) : M AuthResponse :=
  let email := lb_email body in
  let password := lb_password body in
  if bool_decide (email = "") || bool_decide (password = "") then
    ret (mkAuthResponse 400 (AuthMsg "Email and password are required"))
  else
    await user <- User_findOne_email email;
    match user with
    | None => ret (mkAuthResponse 401 (AuthMsg "Invalid credentials"))
    | Some user =>
        let isMatch := bcrypt_compare libs password (ud_password user) in
        if negb isMatch then ret (mkAuthResponse 401 (AuthMsg "Invalid credentials"))
        else
          await tokens <- generateAuthTokens jwt env user now;
          await cached <- lift_throwing (toUserResponse user);
          exec redis_set ("user:" +:+ ud_id user)
                 (JSON_stringify libs cached) config_redis_ttl_user now;
          await response <- lift_throwing (toUserResponse user);
          ret (mkAuthResponse 200 (AuthSession response tokens))
    end.

Definition login (body : LoginBody) (now : Z) : World -> AuthResponse * World :=
  try_catch (login_body body now)
    (fun _ => mkAuthResponse 500 (AuthMsg "Failed to login")).
End Login.

(** ** Express routing

    How Express finds the handlers of a request, as far as [app.ts] and
    the routers rely on it: paths are compared segment by segment,
    without regard to letter case, and one trailing slash is overlooked
    ([case sensitive routing] and [strict routing] are off); a [use]
    layer matches every path that begins with its mount path, a route
    only the paths that end there; a route for GET also takes HEAD; the
    handlers of a layer run in order, each passing the request on or
    answering it, and a request that the handlers of a layer pass on
    goes to the next layer that matches. *)

(** One segment of a route path: a literal, or a parameter [:name]. *)
Inductive Seg :=
| Lit (s : string)
| Param (name : string).

Definition lower_ascii (c : ascii) : ascii :=
  let n := nat_of_ascii c in
  if ((65 <=? n) && (n <=? 90))%nat then ascii_of_nat (n + 32) else c.

Fixpoint toLowerCase (s : string) : string :=
  match s with
  | EmptyString => EmptyString
  | String c rest => String (lower_ascii c) (toLowerCase rest)
  end.

(** The segments of a request path, which begins with a slash:
    ["/api/auth/login"] has ["api"], ["auth"], ["login"]. *)
Definition segments (p : string) : list string := tail (split "/" p).

Fixpoint without_trailing_slash (segs : list string) : list string :=
  match segs with
  | [] => []
  | [""] => []
  | s :: rest => s :: without_trailing_slash rest
  end.

Definition seg_matches (pat : Seg) (s : string) : bool :=
  match pat with
  | Lit l => bool_decide (toLowerCase l = toLowerCase s)
  | Param _ => negb (bool_decide (s = ""))
  end.

Fixpoint matches_all (pat : list Seg) (segs : list string) : bool :=
  match pat, segs with
  | [], [] => true
  | p :: pat', s :: segs' => seg_matches p s && matches_all pat' segs'
  | _, _ => false
  end.

(** A route matches the paths that are its own, to the end. *)
Definition match_route (pat : list Seg) (segs : list string) : bool :=
  matches_all pat (without_trailing_slash segs).

(** A [use] layer matches the paths under its mount path; what it mounts
    sees the rest of the path. *)
Fixpoint match_mount (pat : list Seg) (segs : list string) : option (list string) :=
  match pat, segs with
  | [], _ => Some segs
  | p :: pat', s :: segs' => if seg_matches p s then match_mount pat' segs' else None
  | _ :: _, [] => None
  end.

(** [route._handles_method]: a route takes its own method, and a GET
    route takes HEAD as well. *)
Definition handles_method (m requested : string) : bool :=
  bool_decide (m = requested)
  || bool_decide (requested = "HEAD") && bool_decide (m = "GET").

(** [req.params] *)
Definition with_params (projectId taskId memberId : string) (r : Request) : Request :=
  mkRequest (method r) (path r) (header_Authorization r) projectId taskId memberId
    (body_userId r) (body_name r) (body_description r) (body_type r) (user r)
    (token r) (projectDocument r) (userDocument r) (userToAdd r) (task r).

Definition set_param (name value : string) (r : Request) : Request :=
  if bool_decide (name = "projectId") then
    with_params value (params_taskId r) (params_memberId r) r
  else if bool_decide (name = "taskId") then
    with_params (params_projectId r) value (params_memberId r) r
  else if bool_decide (name = "memberId") then
    with_params (params_projectId r) (params_taskId r) value r
  else r.

(** What the application sends back: the JSON answers of the
    controllers, the answer of the error handler, or an answer of which
    only the status is looked at. *)
Inductive Answer :=
| Sent (res : Response)
| SentAuth (res : AuthResponse)
| SentError (res : Z * ErrorBody)
| SentStatus (status : Z).

(** What a handler does with a request: [next()], an answer, or
    [next(err)]. *)
Inductive Step :=
| Pass (req : Request)
| Done (a : Answer)
| Fail (err : JsError).

Definition Handler := Request -> Z -> World -> Step * World.

(** A router, or a handler mounted with [use]: it is given the segments
    of the path below its mount point. *)
Definition Mounted := list string -> Handler.

Definition middleware (m : Middleware) : Handler :=
  fun req now w =>
    match m req now w with
    | (Next req', w') => (Pass req', w')
    | (Respond res, w') => (Done (Sent res), w')
    end.

Definition controller (c : Controller) : Handler :=
  fun req now w => (Done (Sent (c req now w).1), (c req now w).2).

Fixpoint chain (hs : list Handler) (req : Request) (now : Z) (w : World) : Step * World :=
  match hs with
  | [] => (Pass req, w)
  | h :: rest =>
      match h req now w with
      | (Pass req', w') => chain rest req' now w'
      | stopped => stopped
      end
  end.

(** The layers of a router, in the order they are registered. *)
Inductive Layer :=
| Use (pat : list Seg) (hs : list Mounted)
| Route (m : string) (pat : list Seg) (hs : list Handler).

Section Router.
(** [decodeURIComponent], which Express applies to the value of a path
    parameter; a value that does not decode is an error. *)
Context (decodeURIComponent : string -> JsError + string).

Fixpoint bind_params (pat : list Seg) (segs : list string) (r : Request)
    : JsError + Request :=
  match pat, segs with
  | Param name :: pat', s :: segs' =>
      match decodeURIComponent s with
      | inl err => inl err
      | inr value => bind_params pat' segs' (set_param name value r)
      end
  | Lit _ :: pat', _ :: segs' => bind_params pat' segs' r
  | _, _ => inr r
  end.

(** [router.handle]. A layer whose path matches gets the request with
    the parameters of its own path, decoded, on top of those the router
    starts from, which [inherited] puts in place (those of the layer the
    router is mounted in when it was made with [mergeParams], none
    otherwise); a parameter that does not decode is an error, which no
    later handler of the router sees. [options] records that an OPTIONS
    request has met a route for its path and another method: the router
    then answers it itself, 200, when no layer has. *)
Fixpoint run_layers (layers : list Layer) (options : bool) (segs : list string)
    (inherited : Request -> Request) (req : Request) (now : Z) (w : World)
    : Step * World :=
  match layers with
  | [] => if options then (Done (SentStatus 200), w) else (Pass req, w)
  | Use pat hs :: rest =>
      match match_mount pat segs with
      | Some below =>
          match bind_params pat segs (inherited req) with
          | inl err => (Fail err, w)
          | inr req1 =>
              match chain ((fun h => h below) <$> hs) req1 now w with
              | (Pass req', w') => run_layers rest options segs inherited req' now w'
              | stopped => stopped
              end
          end
      | None => run_layers rest options segs inherited req now w
      end
  | Route m pat hs :: rest =>
      if match_route pat segs then
        match bind_params pat segs (inherited req) with
        | inl err => (Fail err, w)
        | inr req1 =>
            if handles_method m (method req) then
              match chain hs req1 now w with
              | (Pass req', w') => run_layers rest options segs inherited req' now w'
              | stopped => stopped
              end
            else
              run_layers rest (options || bool_decide (method req = "OPTIONS")) segs
                inherited req now w
        end
      else run_layers rest options segs inherited req now w
  end.

(** [express.Router({ mergeParams })] with its layers. *)
Definition Router (mergeParams : bool) (layers : list Layer) : Mounted :=
  fun segs req now w =>
    let inherited :=
      if mergeParams
      then with_params (params_projectId req) (params_taskId req) (params_memberId req)
      else with_params "" "" "" in
    match run_layers layers false segs inherited req now w with
    | (Pass req', w') =>
        (Pass (with_params (params_projectId req) (params_taskId req)
                 (params_memberId req) req'), w')
    | stopped => stopped
    end.
End Router.

(** A handler mounted with [use]: it does not look at the path. *)
Definition mounted (h : Handler) : Mounted := fun _ => h.

(** ** The application *)

(** What a library middleware does with a request: it lets it through as
    it is, answers it, or raises an error. *)
Inductive GateStep :=
| Through
| Stop (a : Answer)
| Raise (err : JsError).

Definition Gate := Request -> Z -> World -> GateStep * World.

Definition gate (g : Gate) : Handler :=
  fun req now w =>
    match g req now w with
    | (Through, w') => (Pass req, w')
    | (Stop a, w') => (Done a, w')
    | (Raise err, w') => (Fail err, w')
    end.

(** What the application is assembled from and this development does
    not describe: the library middleware of [app.ts], the rate limiter,
    the controllers that are not embedded here, the way the email and
    the password are read off the body of a login request, the id drawn
    for a new project, and the environment. *)
Record Outside := mkOutside {
  helmet : Gate;
  cors : Gate;
  express_json : Gate;
  express_urlencoded : Gate;
  morgan : Gate;
  rateLimiter : Gate;
  register : Handler;
  getCurrentUser : Handler;
  getProjects : Handler;
  updateProject : Handler;
  deleteProject : Handler;
  getProjectMembers : Handler;
  createTask : Handler;
  getTasks : Handler;
  getTaskById : Handler;
  updateTask : Handler;
  credentials : Request -> LoginBody;
  newProjectId : string;
  populated : Project -> World -> exn + Project;
  decodeURIComponent : string -> JsError + string;
  production : bool
}.

Section App.
Context (jwt : Jsonwebtoken) (env : Env) (libs : AuthLibs) (out : Outside).

(** [auth.route.ts]. The route for the refresh token is commented out
    there, with the import of its controller. *)
Definition authRoutes : list Layer :=
  [ Route "POST" [Lit "register"] [register out];
    Route "POST" [Lit "login"]
      [fun req now w =>
         (Done (SentAuth (login jwt env libs (credentials out req) now w).1),
          (login jwt env libs (credentials out req) now w).2)];
    Route "POST" [Lit "logout"]
      [middleware (authenticate jwt env); controller (logout jwt)];
    Route "GET" [Lit "me"] [middleware (authenticate jwt env); getCurrentUser out] ].

(** [project.route.ts] *)
Definition projectRoutes : list Layer :=
  [ Use [] [mounted (middleware (authenticate jwt env))];
    Route "POST" []
      [middleware (stateless validateProjectCreation);
       middleware (stateless validateProjectType);
       controller (createProject (newProjectId out))];
    Route "GET" [] [getProjects out];
    Route "GET" [Param "projectId"]
      [middleware validateProjectAccess; controller (getProjectById (populated out))];
    Route "PUT" [Param "projectId"]
      [middleware validateProjectAccess; middleware validateProjectOwner;
       updateProject out];
    Route "DELETE" [Param "projectId"]
      [middleware validateProjectAccess; middleware validateProjectOwner;
       deleteProject out];
    Route "GET" [Param "projectId"; Lit "members"]
      [middleware validateProjectAccess; getProjectMembers out];
    Route "POST" [Param "projectId"; Lit "members"]
      [middleware validateProjectAccess; middleware validateProjectMember;
       controller addProjectMember];
    Route "DELETE" [Param "projectId"; Lit "members"; Param "memberId"]
      [middleware validateProjectAccess; middleware validateProjectOwner;
       controller removeProjectMember] ].

(** [task.routes.ts] *)
Definition taskRoutes : list Layer :=
  [ Route "POST" []
      [middleware (authenticate jwt env);
       middleware (stateless (authorize [admin; manager; member]));
       createTask out];
    Route "GET" [] [middleware (authenticate jwt env); getTasks out];
    Route "GET" [Param "taskId"] [middleware (authenticate jwt env); getTaskById out];
    Route "PATCH" [Param "taskId"] [middleware (authenticate jwt env); updateTask out] ].

(** [routes/index.ts] *)
Definition mainRoutes : list Layer :=
  [ Use [] [mounted (gate (rateLimiter out))];
    Use [Lit "auth"] [Router (decodeURIComponent out) false authRoutes];
    Use [Lit "projects"]
      [mounted (middleware (authenticate jwt env));
       Router (decodeURIComponent out) false projectRoutes];
    Use [Lit "projects"; Param "projectId"; Lit "tasks"]
      [mounted (middleware (authenticate jwt env));
       Router (decodeURIComponent out) true taskRoutes] ].

(** [app.ts] *)
Definition appLayers : list Layer :=
  [ Use [] [mounted (gate (helmet out))];
    Use [] [mounted (gate (cors out))];
    Use [] [mounted (gate (express_json out))];
    Use [] [mounted (gate (express_urlencoded out))];
    Use [] [mounted (gate (morgan out))];
    Use [Lit "api"] [Router (decodeURIComponent out) true mainRoutes];
    Route "GET" [Lit "health"] [fun _ _ w => (Done (SentStatus 200), w)];
    Use [] [mounted (fun req _ w => (Done (Sent (notFoundHandler req)), w))] ].

(** The application on a request: its layers, and [errorHandler], the
    last thing [app.ts] registers, for an error that a layer raised.
    Had every layer passed the request on, Express would answer 404
    itself. *)
Definition app (req : Request) (now : Z) (w : World) : Answer * World :=
  match run_layers (decodeURIComponent out) appLayers false (segments (path req))
          (with_params "" "" "") req now w with
  | (Done a, w') => (a, w')
  | (Fail err, w') => (SentError (errorHandler (production out) err), w')
  | (Pass _, w') => (SentStatus 404, w')
  end.

(** The library middleware a request under [/api] goes through, in
    order, before a route is looked for. *)
Fixpoint run_gates (gs : list Gate) (req : Request) (now : Z) (w : World)
    : GateStep * World :=
  match gs with
  | [] => (Through, w)
  | g :: rest =>
      match g req now w with
      | (Through, w') => run_gates rest req now w'
      | stopped => stopped
      end
  end.

Definition gates_of_api : list Gate :=
  [helmet out; cors out; express_json out; express_urlencoded out; morgan out;
   rateLimiter out].
End App.

(** ** Datastore invariants *)

(** Every project document is kept under its own [_id]. *)
Definition projects_keyed (w : World) : Prop :=
  map_Forall (fun id p => p_id p = id) (projects w).

#[global] Instance projects_keyed_dec w : Decision (projects_keyed w).
Proof. unfold projects_keyed. apply _. Defined.

(** ** When a request is authenticated *)

(** The conditions [authenticate] tests, in its order: a bearer header
    with a token, no live revocation entry for the token, a token that
    verifies, and an account for the subject it names. *)
Definition authenticates (jwt : Jsonwebtoken) (env : Env) (req : Request) (now : Z)
    (w : World) (tok : string) (decoded : JwtPayload) (ud : UserDoc) : Prop :=
  exists authHeader,
    header_Authorization req = Some authHeader
    /\ String.prefix "Bearer " authHeader = true
    /\ split " " authHeader !! 1%nat = Some tok
    /\ tok <> ""
    /\ redis_up w = true
    /\ falsy (cache_lookup w ("blacklist:" +:+ tok) now) = true
    /\ jwt_verify jwt tok (JWT_SECRET env) now = inr decoded
    /\ users w !! jp_id decoded = Some ud.

(** ** Further runs of the deployment *)
Module Cases.

(** An admin who owns nothing. *)
Definition admin_id : string := "650000000000000000000003".

Definition admin_doc : UserDoc :=
  mkUserDoc admin_id "ada" "ada@example.org" "hash-a1" admin None.


(** The project with the member in it. *)
Definition p1_joined : Project :=
  mkProject Scenario.project_id "Apollo" "" "backend" Scenario.owner_id
    [Scenario.owner_id; Scenario.subject_id].

Definition world_joined : World :=
  mkWorld ∅ true {[ Scenario.project_id := p1_joined ]}
    {[ Scenario.task_id := Scenario.t1 ]}
    {[ Scenario.owner_id := Scenario.owner_doc;
       Scenario.subject_id := Scenario.member_doc;
       admin_id := admin_doc ]} [].

(** [bcrypt] and [JSON] on the users of the deployment: the password of
    a user is their name, and hashes are as stored. *)
Definition libs : AuthLibs :=
  mkAuthLibs
    (fun password hash =>
       bool_decide (password = "uma" /\ hash = "hash-u1")
       || bool_decide (password = "olga" /\ hash = "hash-o1"))
    (fun u => "{_id:" +:+ _id u +:+ "}").
(** The application of the deployment: library middleware and a rate
    limiter that let every request through, no parameter that fails to
    decode, production mode; the controllers that are not embedded
    answer 501, and populating a user fails as populating a project
    does. *)
Definition outside : Outside :=
  let through : Gate := fun _ _ w => (Through, w) in
  let absent : Handler := fun _ _ w => (Done (SentStatus 501), w) in
  mkOutside through through through through through through
    absent absent absent absent absent absent absent absent absent absent
    (fun _ => mkLoginBody "" "") Scenario.new_project_id
    (fun _ _ => inl (MissingSchemaError "User")) inr true.
End Cases.

(** * Properties *)

Ltac world_simpl :=
  cbn [redis_up emit cache projects tasks users log with_cache with_projects fst snd].

Ltac run_body :=
  unfold validateProjectAccess, validateTaskAccess, try_catch,
    validateProjectAccess_body, validateTaskAccess_body, bind, ret, throw,
    redis_get, redis_set, Project_findById, Task_findOne, populate_project;
  world_simpl.

(** ** Running the access middlewares *)

Lemma cache_lookup_live w key now v e :
  cache w !! key = Some (v, e) -> now < e -> cache_lookup w key now = Some v.
Proof.
  intros Hk Hlt. unfold cache_lookup. rewrite Hk. cbn. unfold live. cbn.
  destruct (decide (now < e)); [reflexivity | lia].
Qed.

Lemma cache_lookup_stored key b now w now' :
  now' < now + 3600 * 1000 ->
  cache_lookup (stored key b now w) key now' = Some (sentinel b).
Proof.
  intros Hlt. apply cache_lookup_live with (e := now + 3600 * 1000); [|exact Hlt].
  unfold stored. cbn. apply lookup_insert_eq.
Qed.

(** A cached ["true"] lets the request through without a datastore read. *)
Lemma validateProjectAccess_hit_true req now w :
  redis_up w = true ->
  cache_lookup w (project_cacheKey req) now = Some "true" ->
  validateProjectAccess req now w = (Next req, emit (CacheGet (project_cacheKey req)) w).
Proof.
  intros Hup Hc. run_body. rewrite Hup. fold (project_cacheKey req). rewrite Hc.
  reflexivity.
Qed.

(** A cached ["false"] answers 403 without a datastore read. *)
Lemma validateProjectAccess_hit_false req now w :
  redis_up w = true ->
  cache_lookup w (project_cacheKey req) now = Some "false" ->
  validateProjectAccess req now w =
    (Respond (json 403 "Access denied to project"),
     emit (CacheGet (project_cacheKey req)) w).
Proof.
  intros Hup Hc. run_body. rewrite Hup. fold (project_cacheKey req). rewrite Hc.
  reflexivity.
Qed.

(** On a miss the project is read and membership alone decides. *)
Lemma validateProjectAccess_miss req now w project :
  redis_up w = true ->
  cache_lookup w (project_cacheKey req) now <> Some "true" ->
  cache_lookup w (project_cacheKey req) now <> Some "false" ->
  projects w !! params_projectId req = Some project ->
  let hasAccess := from_option (includes (members project)) false (_id <$> user req) in
  validateProjectAccess req now w =
    (if hasAccess then Next (set_projectDocument project req)
     else Respond (json 403 "Access denied to project"),
     stored (project_cacheKey req) hasAccess now
       (emit (DbRead "projects" (params_projectId req))
          (emit (CacheGet (project_cacheKey req)) w))).
Proof.
  intros Hup Ht Hf Hp hasAccess. run_body. rewrite Hup.
  fold (project_cacheKey req).
  destruct (decide (cache_lookup w (project_cacheKey req) now = Some "true")); [done|].
  destruct (decide (cache_lookup w (project_cacheKey req) now = Some "false")); [done|].
  world_simpl. rewrite Hp. fold hasAccess. world_simpl. rewrite Hup.
  unfold stored. destruct hasAccess; reflexivity.
Qed.

(** A miss on a project that does not exist answers 404 and caches nothing. *)
Lemma validateProjectAccess_not_found req now w :
  redis_up w = true ->
  cache_lookup w (project_cacheKey req) now <> Some "true" ->
  cache_lookup w (project_cacheKey req) now <> Some "false" ->
  projects w !! params_projectId req = None ->
  castsToObjectId (params_projectId req) = true ->
  validateProjectAccess req now w =
    (Respond (json 404 "Project not found"),
     emit (DbRead "projects" (params_projectId req))
       (emit (CacheGet (project_cacheKey req)) w)).
Proof.
  intros Hup Ht Hf Hp Hid. run_body. rewrite Hup. fold (project_cacheKey req).
  destruct (decide (cache_lookup w (project_cacheKey req) now = Some "true")); [done|].
  destruct (decide (cache_lookup w (project_cacheKey req) now = Some "false")); [done|].
  world_simpl. rewrite Hp, Hid. reflexivity.
Qed.

(** A miss with a project id that is no ObjectId: [findById] throws, the
    [catch] answers 500, and the datastore has not been asked. *)
Lemma validateProjectAccess_cast_error req now w :
  redis_up w = true ->
  cache_lookup w (project_cacheKey req) now <> Some "true" ->
  cache_lookup w (project_cacheKey req) now <> Some "false" ->
  projects w !! params_projectId req = None ->
  castsToObjectId (params_projectId req) = false ->
  validateProjectAccess req now w =
    (Respond (json 500 "Error validating project access"),
     emit (CacheGet (project_cacheKey req)) w).
Proof.
  intros Hup Ht Hf Hp Hid. run_body. rewrite Hup. fold (project_cacheKey req).
  destruct (decide (cache_lookup w (project_cacheKey req) now = Some "true")); [done|].
  destruct (decide (cache_lookup w (project_cacheKey req) now = Some "false")); [done|].
  world_simpl. rewrite Hp, Hid. reflexivity.
Qed.

(** With Redis unreachable the first command rejects and the handler's
    [catch] answers 500; nothing has been read or written. *)
Lemma validateProjectAccess_down req now w :
  redis_up w = false ->
  validateProjectAccess req now w =
    (Respond (json 500 "Error validating project access"), w).
Proof. intros Hup. run_body. rewrite Hup. reflexivity. Qed.

(** The task middleware answers 401 before anything else when the
    request carries no user id. *)
Lemma validateTaskAccess_unauthorized req now w :
  falsy (_id <$> user req) = true ->
  validateTaskAccess req now w = (Respond (json 401 "Unauthorized"), w).
Proof. intros Hu. run_body. rewrite Hu. reflexivity. Qed.

Lemma validateTaskAccess_hit_true req now w :
  falsy (_id <$> user req) = false ->
  redis_up w = true ->
  cache_lookup w (task_cacheKey req) now = Some "true" ->
  validateTaskAccess req now w = (Next req, emit (CacheGet (task_cacheKey req)) w).
Proof.
  intros Hu Hup Hc. run_body. rewrite Hu, Hup. fold (task_cacheKey req). rewrite Hc.
  reflexivity.
Qed.

Lemma validateTaskAccess_hit_false req now w :
  falsy (_id <$> user req) = false ->
  redis_up w = true ->
  cache_lookup w (task_cacheKey req) now = Some "false" ->
  validateTaskAccess req now w =
    (Respond (json 403 "Access denied to task"), emit (CacheGet (task_cacheKey req)) w).
Proof.
  intros Hu Hup Hc. run_body. rewrite Hu, Hup. fold (task_cacheKey req). rewrite Hc.
  reflexivity.
Qed.

(** No model is registered under the name the task schema refers to:
    populating the project of a task throws. *)
Lemma populate_project_throws t :
  populate_project t = throw (MissingSchemaError "Project").
Proof. reflexivity. Qed.

(** On a miss that finds the task, [populate] throws and the [catch]
    answers 500: the task has been read, the project has not, and
    nothing is stored. *)
Lemma validateTaskAccess_found req now w t :
  falsy (_id <$> user req) = false ->
  redis_up w = true ->
  cache_lookup w (task_cacheKey req) now <> Some "true" ->
  cache_lookup w (task_cacheKey req) now <> Some "false" ->
  find_task w (params_taskId req) (params_projectId req) = Some t ->
  validateTaskAccess req now w =
    (Respond (json 500 "Error validating task access"),
     emit (DbRead "tasks" (params_taskId req))
       (emit (CacheGet (task_cacheKey req)) w)).
Proof.
  intros Hu Hup Ht Hf Htask.
  unfold validateTaskAccess, try_catch, validateTaskAccess_body, bind, ret,
    redis_get, Task_findOne.
  rewrite Hu, Hup. fold (task_cacheKey req).
  destruct (decide (cache_lookup w (task_cacheKey req) now = Some "true")); [done|].
  destruct (decide (cache_lookup w (task_cacheKey req) now = Some "false")); [done|].
  world_simpl. fold (find_task w (params_taskId req) (params_projectId req)).
  rewrite Htask. by rewrite populate_project_throws.
Qed.

Lemma validateTaskAccess_not_found req now w :
  falsy (_id <$> user req) = false ->
  redis_up w = true ->
  cache_lookup w (task_cacheKey req) now <> Some "true" ->
  cache_lookup w (task_cacheKey req) now <> Some "false" ->
  find_task w (params_taskId req) (params_projectId req) = None ->
  castsToObjectId (params_taskId req) && castsToObjectId (params_projectId req) = true ->
  validateTaskAccess req now w =
    (Respond (json 404 "Task not found"),
     emit (DbRead "tasks" (params_taskId req))
       (emit (CacheGet (task_cacheKey req)) w)).
Proof.
  intros Hu Hup Ht Hf Htask Hid.
  unfold validateTaskAccess, try_catch, validateTaskAccess_body, bind, ret,
    redis_get, Task_findOne.
  rewrite Hu, Hup. fold (task_cacheKey req).
  destruct (decide (cache_lookup w (task_cacheKey req) now = Some "true")); [done|].
  destruct (decide (cache_lookup w (task_cacheKey req) now = Some "false")); [done|].
  world_simpl. fold (find_task w (params_taskId req) (params_projectId req)).
  rewrite Htask, Hid. reflexivity.
Qed.

(** A miss with a task id or a project id that is no ObjectId:
    [findOne] throws on its filter. *)
Lemma validateTaskAccess_cast_error req now w :
  falsy (_id <$> user req) = false ->
  redis_up w = true ->
  cache_lookup w (task_cacheKey req) now <> Some "true" ->
  cache_lookup w (task_cacheKey req) now <> Some "false" ->
  find_task w (params_taskId req) (params_projectId req) = None ->
  castsToObjectId (params_taskId req) && castsToObjectId (params_projectId req) = false ->
  validateTaskAccess req now w =
    (Respond (json 500 "Error validating task access"),
     emit (CacheGet (task_cacheKey req)) w).
Proof.
  intros Hu Hup Ht Hf Htask Hid.
  unfold validateTaskAccess, try_catch, validateTaskAccess_body, bind, ret,
    redis_get, Task_findOne.
  rewrite Hu, Hup. fold (task_cacheKey req).
  destruct (decide (cache_lookup w (task_cacheKey req) now = Some "true")); [done|].
  destruct (decide (cache_lookup w (task_cacheKey req) now = Some "false")); [done|].
  world_simpl. fold (find_task w (params_taskId req) (params_projectId req)).
  rewrite Htask, Hid. reflexivity.
Qed.

Lemma validateTaskAccess_down req now w :
  falsy (_id <$> user req) = false ->
  redis_up w = false ->
  validateTaskAccess req now w = (Respond (json 500 "Error validating task access"), w).
Proof. intros Hu Hup. run_body. rewrite Hu, Hup. reflexivity. Qed.

(** ** The access check, for either resource type *)


Lemma check_runs rt req now w : check_run rt req now w (check rt req now w).
Proof.
  destruct rt; cbn [check].
  - destruct (redis_up w) eqn:Hup; cycle 1.
    { rewrite validateProjectAccess_down by done.
      by apply (run_cache_down project_resource). }
    destruct (decide (cache_lookup w (project_cacheKey req) now = Some "true")) as [Ht|Ht].
    { rewrite validateProjectAccess_hit_true by done.
      by apply (run_hit project_resource req now w true). }
    destruct (decide (cache_lookup w (project_cacheKey req) now = Some "false")) as [Hf|Hf].
    { rewrite validateProjectAccess_hit_false by done.
      by apply (run_hit project_resource req now w false). }
    destruct (projects w !! params_projectId req) as [p|] eqn:Hp.
    + rewrite (validateProjectAccess_miss req now w p) by done.
      set (b := from_option _ _ _). clearbody b.
      replace (if b then Next (set_projectDocument p req) else _)
        with (decision_outcome project_resource (set_projectDocument p req) b)
        by (by destruct b).
      by apply (run_miss project_resource req now w b _
                  [DbRead "projects" (params_projectId req)]).
    + destruct (castsToObjectId (params_projectId req)) eqn:Hid.
      * rewrite validateProjectAccess_not_found by done.
        apply (run_unresolved project_resource req now w _
                 [DbRead "projects" (params_projectId req)]); try done. by left.
      * rewrite validateProjectAccess_cast_error by done.
        apply (run_unresolved project_resource req now w _ []); try done. by right.
  - destruct (falsy (_id <$> user req)) eqn:Hu.
    { rewrite validateTaskAccess_unauthorized by done.
      by apply run_unauthorized. }
    destruct (redis_up w) eqn:Hup; cycle 1.
    { rewrite validateTaskAccess_down by done.
      by apply (run_cache_down task_resource). }
    destruct (decide (cache_lookup w (task_cacheKey req) now = Some "true")) as [Ht|Ht].
    { rewrite validateTaskAccess_hit_true by done.
      by apply (run_hit task_resource req now w true). }
    destruct (decide (cache_lookup w (task_cacheKey req) now = Some "false")) as [Hf|Hf].
    { rewrite validateTaskAccess_hit_false by done.
      by apply (run_hit task_resource req now w false). }
    destruct (find_task w (params_taskId req) (params_projectId req)) as [t|] eqn:Htask.
    + rewrite (validateTaskAccess_found req now w t) by done.
      apply (run_unresolved task_resource req now w _
               [DbRead "tasks" (params_taskId req)]); try done. by right.
    + destruct (castsToObjectId (params_taskId req)
                && castsToObjectId (params_projectId req)) eqn:Hid.
      * rewrite validateTaskAccess_not_found by done.
        apply (run_unresolved task_resource req now w _
                 [DbRead "tasks" (params_taskId req)]); try done. by left.
      * rewrite validateTaskAccess_cast_error by done.
        apply (run_unresolved task_resource req now w _ []); try done. by right.
Qed.


(** C8 fails for tasks. The owner of the project asks for its task
    twice, a second apart, with nothing else happening in between. The
    task is found, and the owner is the creator of its project; yet the
    first check reaches no decision: populating the task's project
    throws, the answer is 500 and nothing is stored. The second check
    does the same, and reads the datastore again. *)
Theorem check_task_twice_reads_datastore_twice :
  let req := Scenario.get_task Scenario.owner in
  let first := check task_resource req Scenario.now0 Scenario.world0 in
  let second := check task_resource req (Scenario.now0 + 1000) (snd first) in
  find_task Scenario.world0 (params_taskId req) (params_projectId req) = Some Scenario.t1
  /\ projects Scenario.world0 !! t_project Scenario.t1 = Some Scenario.p1
  /\ createdBy Scenario.p1 = _id Scenario.owner
  /\ fst first = Respond (json 500 "Error validating task access")
  /\ decision_of (fst first) = None
  /\ cache (snd first) = cache Scenario.world0
  /\ fst second = Respond (json 500 "Error validating task access")
  /\ decision_of (fst second) = None
  /\ log (snd second)
     = DbRead "tasks" Scenario.task_id :: CacheGet (task_cacheKey req) :: log (snd first)
  /\ db_reads (log (snd second)) = S (db_reads (log (snd first))).
Proof. repeat split. Qed.




(** C6, as the specification has it, fails: with Redis unreachable the
    owner, a member of the project, gets the internal failure,
    for the project and for its task, and the datastore is not asked. *)
Lemma check_cache_down_counterexample :
  redis_up Scenario.world_down = false
  /\ includes (members Scenario.p1) Scenario.owner_id = true
  /\ check project_resource (Scenario.get_project Scenario.owner)
       Scenario.now0 Scenario.world_down
     = (Respond (json 500 "Error validating project access"), Scenario.world_down)
  /\ check task_resource (Scenario.get_task Scenario.owner)
       Scenario.now0 Scenario.world_down
     = (Respond (json 500 "Error validating task access"), Scenario.world_down).
Proof. repeat split. Qed.

(** C6, amended. If the cache store is unreachable when access is
    checked for a request that carries a user id, the check answers with
    the internal failure (status 500) for projects and tasks alike, and
    leaves both stores and the trace as they were: the datastore is not
    consulted, and the answer is neither allow nor deny. *)
Theorem check_cache_down_is_internal_failure
    (rt : ResourceType) (req : Request) (now : Z) (w : World) :
  redis_up w = false ->
  falsy (_id <$> user req) = false ->
  check rt req now w = (Respond (json 500 (failure_message rt)), w)
  /\ decision_of (fst (check rt req now w)) = None.
Proof.
  intros Hup Hu.
  assert (check rt req now w = (Respond (json 500 (failure_message rt)), w)) as ->.
  { destruct rt; cbn [check failure_message].
    - by apply validateProjectAccess_down.
    - by apply validateTaskAccess_down. }
  done.
Qed.

Lemma check_cache_down_witness :
  check task_resource (Scenario.get_task Scenario.subject)
    Scenario.now0 Scenario.world_down
  = (Respond (json 500 "Error validating task access"), Scenario.world_down)
  /\ decision_of (fst (check task_resource (Scenario.get_task Scenario.subject)
                         Scenario.now0 Scenario.world_down)) = None.
Proof.
  apply (check_cache_down_is_internal_failure task_resource
           (Scenario.get_task Scenario.subject) Scenario.now0 Scenario.world_down).
  - reflexivity.
  - reflexivity.
Defined.

(** ** What a miss computes *)

(** On a miss the project check allows exactly the members of the
    project; whether the subject created it plays no part. *)
Lemma validateProjectAccess_miss_member_only req now w p u :
  user req = Some u ->
  redis_up w = true ->
  cache_lookup w (project_cacheKey req) now = None ->
  projects w !! params_projectId req = Some p ->
  let r := validateProjectAccess req now w in
  (decision_of (fst r) = Some allow <-> _id u ∈ members p)
  /\ exists b, decision_of (fst r) = Some (to_decision b)
               /\ cache_lookup (snd r) (project_cacheKey req) now = Some (sentinel b).
Proof.
  intros Hu Hup Hc Hp r. subst r.
  rewrite (validateProjectAccess_miss req now w p); try done; cycle 1.
  { by rewrite Hc. }
  { by rewrite Hc. }
  rewrite Hu. cbn [fmap option_fmap option_map from_option fst snd].
  unfold includes. destruct (decide (_id u ∈ members p)) as [Hin|Hin].
  - rewrite (bool_decide_eq_true_2 _ Hin). split; [done|].
    exists true. split; [done|]. apply cache_lookup_stored. lia.
  - rewrite (bool_decide_eq_false_2 _ Hin). split.
    + cbn. split; [discriminate | done].
    + exists false. split; [done|]. apply cache_lookup_stored. lia.
Qed.

(** C5 fails on the project path. The owner of a project, once out of
    its member list, is denied on a cache miss, and the denial is what
    gets stored: membership alone decides, whoever created the project. *)
Theorem validateProjectAccess_denies_owner_outside_members :
  createdBy Scenario.p1_ownerless = _id Scenario.owner
  /\ projects Scenario.world_ownerless !! Scenario.project_id = Some Scenario.p1_ownerless
  /\ cache_lookup Scenario.world_ownerless (project_cacheKey (Scenario.get_project Scenario.owner)) Scenario.now0 = None
  /\ fst (check project_resource (Scenario.get_project Scenario.owner)
            Scenario.now0 Scenario.world_ownerless)
     = Respond (json 403 "Access denied to project")
  /\ cache_lookup
       (snd (check project_resource (Scenario.get_project Scenario.owner)
               Scenario.now0 Scenario.world_ownerless))
       (project_cacheKey (Scenario.get_project Scenario.owner)) Scenario.now0 = Some "false".
Proof. repeat split. Qed.

(** The ownerless project is within reach of the API: it is what the
    owner's [DELETE /projects/:projectId/members/:memberId], naming
    themselves, leaves in the datastore. *)
Lemma delete_project_member_can_remove_owner :
  let r := delete_project_member Scenario.remove_owner Scenario.now0 Scenario.world0 in
  status (fst r) = 200
  /\ projects (snd r) !! Scenario.project_id = Some Scenario.p1_ownerless.
Proof. split; reflexivity. Qed.

(** ** Membership changes and the cached decisions *)

(** All that [addProjectMember] does to the cache is three [del]
    commands, each of one key by its exact name. *)
Lemma addProjectMember_cache req now w p u :
  projectDocument req = Some p ->
  userToAdd req = Some u ->
  redis_up w = true ->
  cache (snd (addProjectMember req now w))
  = delete ("projects:user:" +:+ _id u)
      (delete ("project:" +:+ p_id p +:+ ":*")
         (delete ("projects:user:" +:+ tpl (_id <$> user req)) (cache w))).
Proof.
  intros Hp Hu Hup.
  unfold addProjectMember, try_catch, addProjectMember_body, bind, ret,
    Project_save, redis_del.
  rewrite Hp, Hu.
  destruct (negb (some (members p) (fun member => bool_decide (member = _id u))));
    world_simpl; rewrite Hup; world_simpl; rewrite Hup; world_simpl; rewrite Hup;
    reflexivity.
Qed.

Lemma append_inv_head (s a b : string) : s +:+ a = s +:+ b -> a = b.
Proof. induction s as [|c s IH]; cbn; [done|]. intros [= H]. by apply IH. Qed.

(** In general: whatever decision is cached for a user on a project
    survives [addProjectMember] on that project, whoever is added. A
    cached denial of the added user is therefore still served. *)
Lemma addProjectMember_keeps_cached_decision req now w p u req' now' :
  projectDocument req = Some p ->
  userToAdd req = Some u ->
  redis_up w = true ->
  params_projectId req' = p_id p ->
  let w1 := snd (addProjectMember req now w) in
  cache_lookup w1 (project_cacheKey req') now' = cache_lookup w (project_cacheKey req') now'.
Proof.
  intros Hp Hu Hup Hpid w1. subst w1. unfold cache_lookup.
  rewrite (addProjectMember_cache req now w p u) by done.
  unfold project_cacheKey. rewrite Hpid.
  rewrite !lookup_delete_ne; [done | | |].
  - cbn. discriminate.
  - cbn. intros [= H]. change ("" +:+ ?x) with x in H.
    apply (append_inv_head (p_id p)) in H. discriminate.
  - cbn. discriminate.
Qed.

(** C1 fails. The member has been denied the project and the denial is
    cached. [addProjectMember] then adds the member and answers 200; the
    datastore lists them as a member; its three [del] commands name
    [project:<id>:*] and two list keys, none of which is the key of the
    cached decision. The next check for the member is answered 403
    from the cache, with no datastore read. *)
Theorem addProjectMember_leaves_cached_deny :
  let w0 := Scenario.world_denied in
  let added := addProjectMember Scenario.add_subject_prepared (Scenario.now0 + 1000) w0 in
  let w1 := snd added in
  let again := check project_resource (Scenario.get_project Scenario.subject)
                 (Scenario.now0 + 2000) w1 in
  let key := project_cacheKey (Scenario.get_project Scenario.subject) in
  cache_lookup w0 key Scenario.now0 = Some "false"
  /\ status (fst added) = 200
  /\ (members <$> projects w1 !! Scenario.project_id)
     = Some [Scenario.owner_id; Scenario.subject_id]
  /\ take 3 (log w1)
     = [CacheDel ("projects:user:" +:+ Scenario.subject_id);
        CacheDel ("project:" +:+ Scenario.project_id +:+ ":*");
        CacheDel ("projects:user:" +:+ Scenario.owner_id)]
  /\ cache_lookup w1 key (Scenario.now0 + 2000) = Some "false"
  /\ fst again = Respond (json 403 "Access denied to project")
  /\ db_reads (log (snd again)) = db_reads (log w1).
Proof. repeat split. Qed.

(** The access middleware passes a request on with [req.userToAdd] as
    it found it, and never writes to the project collection. *)
Lemma validateProjectAccess_next req now w r w' :
  validateProjectAccess req now w = (Next r, w') ->
  userToAdd r = userToAdd req /\ projects w' = projects w.
Proof.
  destruct (redis_up w) eqn:Hup; cycle 1.
  { by rewrite validateProjectAccess_down. }
  destruct (decide (cache_lookup w (project_cacheKey req) now = Some "true")) as [Ht|Ht].
  { rewrite validateProjectAccess_hit_true by done. by intros [= <- <-]. }
  destruct (decide (cache_lookup w (project_cacheKey req) now = Some "false")) as [Hf|Hf].
  { by rewrite validateProjectAccess_hit_false. }
  destruct (projects w !! params_projectId req) as [p|] eqn:Hp.
  - rewrite (validateProjectAccess_miss req now w p) by done.
    destruct (from_option _ _ _); [|done]. by intros [= <- <-].
  - destruct (castsToObjectId (params_projectId req)) eqn:Hid.
    + by rewrite validateProjectAccess_not_found.
    + by rewrite validateProjectAccess_cast_error.
Qed.

(** So does the member middleware: it fills [req.userDocument] and
    [req.projectDocument] only. *)
Lemma validateProjectMember_next req now w r w' :
  validateProjectMember req now w = (Next r, w') ->
  userToAdd r = userToAdd req /\ projects w' = projects w.
Proof.
  unfold validateProjectMember, try_catch, validateProjectMember_body, bind, ret,
    User_findById, Project_findById. world_simpl.
  destruct (users w !! body_userId req) as [ud|];
    [|by destruct (castsToObjectId (body_userId req))].
  destruct (negb (bool_decide (ud_role ud = member))); [done|]. world_simpl.
  destruct (projects w !! params_projectId req) as [p|];
    [|by destruct (castsToObjectId (params_projectId req))].
  destruct (_ && _); [done|].
  destruct (includes (members p) (body_userId req)); [done|].
  by intros [= <- <-].
Qed.

(** Through the route the member is never added: the middleware leaves
    the user in [req.userDocument], the controller looks for
    [req.userToAdd], which nothing sets, and answers 400 where the
    middlewares have not already answered. *)
Lemma post_project_members_never_adds req now w :
  userToAdd req = None ->
  projects (snd (post_project_members req now w)) = projects w
  /\ status (fst (post_project_members req now w)) <> 200.
Proof.
  intros Hnone. unfold post_project_members, via.
  destruct (validateProjectAccess req now w) as [[r1|res1] w1] eqn:H1; cycle 1.
  { cbn. split.
    - revert H1. destruct (redis_up w) eqn:Hup; cycle 1.
      { rewrite validateProjectAccess_down by done. by intros [= <- <-]. }
      pose proof (check_runs project_resource req now w) as Hrun. cbn [check] in Hrun.
      intros H1. rewrite H1 in Hrun.
      inversion Hrun as [| | b Hu Hup' Hc | b req' reads Hu Hup' Ht Hf Hne Hr
                         | ? reads Hu Hup' Ht Hf Hr Hst]; subst; done.
    - pose proof (check_runs project_resource req now w) as Hrun. cbn [check] in Hrun.
      rewrite H1 in Hrun.
      inversion Hrun as [| | b Hu Hup' Hc | b req' reads Hu Hup' Ht Hf Hne Hr
                         | ? reads Hu Hup' Ht Hf Hr Hst]; subst; cbn; try done.
      + destruct b; [done|]. cbn in *. by simplify_eq.
      + destruct b; [done|]. cbn in *. by simplify_eq.
      + destruct Hst as [-> | ->]; done. }
  apply validateProjectAccess_next in H1 as [Hu1 Hp1].
  destruct (validateProjectMember r1 now w1) as [[r2|res2] w2] eqn:H2; cycle 1.
  { cbn. revert H2.
    unfold validateProjectMember, try_catch, validateProjectMember_body, bind, ret,
      User_findById, Project_findById. world_simpl.
    destruct (users w1 !! body_userId r1) as [ud|];
      [|by destruct (castsToObjectId (body_userId r1)); intros [= <- <-]].
    destruct (negb (bool_decide (ud_role ud = member))); [by intros [= <- <-]|].
    world_simpl.
    destruct (projects w1 !! params_projectId r1) as [p|];
      [|by destruct (castsToObjectId (params_projectId r1)); intros [= <- <-]].
    destruct (_ && _); [by intros [= <- <-]|].
    destruct (includes (members p) (body_userId r1)); [by intros [= <- <-]|].
    done. }
  apply validateProjectMember_next in H2 as [Hu2 Hp2].
  unfold addProjectMember, try_catch, addProjectMember_body.
  rewrite Hu2, Hu1, Hnone.
  destruct (projectDocument r2); cbn; (split; [congruence | done]).
Qed.

(** ** Project creation *)

(** What [createProject] does for a request that carries a user. *)
Lemma createProject_run (newId : string) (req : Request) (now : Z) (w : World)
    (u : IUserResponse) :
  user req = Some u ->
  createProject newId req now w =
    if projectSchema_accepts (body_name req) (body_type req) then
      let p := mkProject newId (body_name req) (body_description req) (body_type req)
                 (_id u) [_id u] in
      let saved := emit (DbWrite "projects" newId)
                     (with_projects (<[newId := p]> (projects w)) w) in
      if redis_up w then
        (mkResponse 201 (Data p),
         emit (CacheDel "projects:*") (with_cache (delete "projects:*" (cache w)) saved))
      else (json 500 "Failed to create project", saved)
    else (json 500 "Failed to create project", w).
Proof.
  intros Hu.
  unfold createProject, try_catch, createProject_body, bind, new_Project, ret, throw,
    Project_save, redis_del.
  rewrite Hu. cbn [fmap option_fmap option_map].
  destruct (projectSchema_accepts (body_name req) (body_type req)); [|done].
  cbn [negb]. world_simpl. by destruct (redis_up w).
Qed.

Lemma projectSchema_accepts_iff (name type : string) :
  projectSchema_accepts name type = true
  <-> name <> "" /\ type ∈ projectSchema_type_enum.
Proof.
  unfold projectSchema_accepts, includes.
  rewrite !andb_true_iff, !negb_true_iff, !bool_decide_eq_false, bool_decide_eq_true.
  split; [tauto|]. intros [Hn Ht]. split; [split; [done|]|done].
  intros ->. revert Ht. refine (bool_decide_unpack _ _). vm_compute. exact I.
Qed.

(** C9. A project that [createProject] creates for an authenticated
    user is saved with that user as creator and as the one entry of its
    member list, so the members-only project check lets the creator
    through whenever no denial is cached for them. With Redis
    reachable a project is created, and the answer is 201, exactly when
    the body has a name and a type of the schema; otherwise the answer
    is 500 and nothing is stored. *)
Theorem createProject_creator_is_member
    (newId : string) (req : Request) (now : Z) (w : World) (u : IUserResponse) :
  user req = Some u ->
  redis_up w = true ->
  let r := createProject newId req now w in
  (status (fst r) = 201
   <-> body_name req <> "" /\ body_type req ∈ projectSchema_type_enum)
  /\ (status (fst r) = 201 ->
      exists p,
        projects (snd r) !! newId = Some p
        /\ createdBy p = _id u
        /\ members p = [_id u]
        /\ forall req' now',
             user req' = Some u ->
             params_projectId req' = newId ->
             cache_lookup (snd r) (project_cacheKey req') now' <> Some "false" ->
             decision_of (fst (validateProjectAccess req' now' (snd r))) = Some allow)
  /\ (status (fst r) <> 201 ->
      fst r = json 500 "Failed to create project" /\ snd r = w).
Proof.
  intros Hu Hup r. subst r.
  rewrite (createProject_run newId req now w u Hu), Hup.
  pose proof (projectSchema_accepts_iff (body_name req) (body_type req)) as Hiff.
  destruct (projectSchema_accepts (body_name req) (body_type req)); cycle 1.
  { cbn. split; [split; [discriminate|]|split; [discriminate|done]].
    intros H. by apply (proj2 Hiff) in H. }
  cbn [fst snd status]. split; [split; [intros _; exact (proj1 Hiff eq_refl) | done]|].
  split; [|done]. intros _.
  eexists. split; [cbn; apply lookup_insert_eq|].
  cbn [createdBy members]. split; [done|]. split; [done|].
  intros req' now' Hu' Hpid Hc.
  match goal with |- context [validateProjectAccess _ _ ?w1] => set (w1' := w1) in * end.
  destruct (decide (cache_lookup w1' (project_cacheKey req') now' = Some "true")) as [Ht|Ht].
  - by rewrite validateProjectAccess_hit_true.
  - rewrite (validateProjectAccess_miss req' now' w1'
               (mkProject newId (body_name req) (body_description req) (body_type req)
                  (_id u) [_id u])); try done.
    + rewrite Hu'. cbn [fmap option_fmap option_map from_option].
      unfold includes. rewrite bool_decide_eq_true_2 by constructor. done.
    + rewrite Hpid. subst w1'. cbn. apply lookup_insert_eq.
Qed.

(** The theorem on a run: the owner creates a project, which gets a new
    id, and asks for it a second later. *)
Lemma createProject_witness :
  let r := createProject Scenario.new_project_id Scenario.create_project
             Scenario.now0 Scenario.world0 in
  let ask := mkRequest "GET" ("/api/projects/" +:+ Scenario.new_project_id) None
               Scenario.new_project_id "" "" "" "" "" ""
               (Some Scenario.owner) None None None None None in
  status (fst r) = 201
  /\ (members <$> projects (snd r) !! Scenario.new_project_id)
     = Some [Scenario.owner_id]
  /\ decision_of (fst (validateProjectAccess ask (Scenario.now0 + 1000) (snd r)))
     = Some allow.
Proof.
  intros r ask.
  destruct (createProject_creator_is_member Scenario.new_project_id
              Scenario.create_project Scenario.now0 Scenario.world0 Scenario.owner
              eq_refl eq_refl)
    as (Hiff & Hcreated & _).
  assert (status (fst r) = 201) as Hstatus.
  { apply Hiff. split; [discriminate|].
    refine (bool_decide_unpack _ _). vm_compute. exact I. }
  destruct (Hcreated Hstatus) as (p & Hp & _ & Hmembers & Hpass).
  split; [exact Hstatus|]. split.
  - subst r. cbv zeta in Hp. rewrite Hp. cbn. by rewrite Hmembers.
  - apply Hpass.
    + reflexivity.
    + reflexivity.
    + vm_compute. discriminate.
Defined.

(** ** Role authorization *)

(** C10. [authorize] answers 403 when the request carries no identity,
    and 403 when the identity's role is not among the allowed roles;
    whatever it answers has status 403, never 401. *)
Theorem authorize_rejects_with_403 (allowedRoles : list TUserRole) (req : Request) :
  (user req = None ->
   authorize allowedRoles req = Respond (json 403 "Authentication required"))
  /\ (forall u, user req = Some u -> role u ∉ allowedRoles ->
      authorize allowedRoles req
      = Respond (json 403 ("Insufficient permissions. Required role: "
                           +:+ join " or " (role_name <$> allowedRoles))))
  /\ (forall res, authorize allowedRoles req = Respond res ->
      status res = 403 /\ status res <> 401).
Proof.
  unfold authorize. split; [|split].
  - by intros ->.
  - intros u -> Hnot. unfold includes. by rewrite bool_decide_eq_false_2.
  - intros res. destruct (user req) as [u|].
    + destruct (negb _); [|done]. by intros [= <-].
    + by intros [= <-].
Qed.

(** The theorem on two requests: one without identity, and one of the
    member on a route for admins and managers. *)
Lemma authorize_witness :
  authorize [admin; manager] Scenario.anonymous
  = Respond (json 403 "Authentication required")
  /\ authorize [admin; manager] (Scenario.get_project Scenario.subject)
     = Respond (json 403 "Insufficient permissions. Required role: admin or manager").
Proof.
  split.
  - apply (proj1 (authorize_rejects_with_403 [admin; manager] Scenario.anonymous)).
    reflexivity.
  - apply (proj1 (proj2 (authorize_rejects_with_403 [admin; manager]
                           (Scenario.get_project Scenario.subject))) Scenario.subject).
    + reflexivity.
    + refine (bool_decide_unpack _ _). vm_compute. exact I.
Defined.

(** ** Tokens: revocation, rejection, rotation *)

Section TokenProperties.
Context (jwt : Jsonwebtoken) (env : Env).

(** What [authenticate] does once the header has yielded a token. *)
Lemma authenticate_with_token req now w authHeader tok :
  header_Authorization req = Some authHeader ->
  String.prefix "Bearer " authHeader = true ->
  split " " authHeader !! 1%nat = Some tok ->
  tok <> "" ->
  redis_up w = true ->
  fst (authenticate jwt env req now w) =
    if negb (falsy (cache_lookup w ("blacklist:" +:+ tok) now)) then
      Respond (json 401 "Session expired. Please login again")
    else
      match jwt_verify jwt tok (JWT_SECRET env) now with
      | inl error => authenticate_catch error
      | inr decoded =>
          match users w !! jp_id decoded with
          | None =>
              if castsToObjectId (jp_id decoded)
              then Respond (json 401 "User account not found")
              else Respond (json 500 "Authentication failed")
          | Some user => Next (set_user_token (toResponseUser user) tok req)
          end
      end.
Proof.
  intros Hh Hpre Hsplit Hne Hup.
  unfold authenticate, try_catch, authenticate_body, bind, ret, redis_get,
    lift_throwing, throw, User_findById.
  rewrite Hh, Hpre, Hsplit. cbn [negb falsy tpl default from_option id].
  rewrite (bool_decide_eq_false_2 _ Hne), Hup.
  destruct (falsy (cache_lookup w ("blacklist:" +:+ tok) now)); cbn [negb];
    [|reflexivity].
  destruct (jwt_verify jwt tok (JWT_SECRET env) now) as [error|decoded];
    [reflexivity|]. unfold ret. world_simpl.
  destruct (users w !! jp_id decoded); [done|].
  by destruct (castsToObjectId (jp_id decoded)).
Qed.

(** C2. Immediate revocation. When a request carrying a token that
    has not yet expired is logged out, [logout] answers 200, stores
    ["logged out"] under [blacklist:<token>] with [EX] equal to the
    token's remaining lifetime, its expiry minus the current time in
    seconds, and deletes the refresh record of the user. From then on
    and until the token's own expiry has passed, [authenticate]
    answers 401 to a request presenting that token, whatever
    [jwt.verify] would say of it. *)
Theorem logout_revokes_token
    (req : Request) (now : Z) (w : World) (tok : string) (u : IUserResponse)
    (decoded : JwtPayload) :
  token req = Some tok ->
  tok <> "" ->
  user req = Some u ->
  redis_up w = true ->
  jwt_decode jwt tok = Some decoded ->
  now / 1000 < exp decoded ->
  let r := logout jwt req now w in
  let remaining := exp decoded - now / 1000 in
  fst r = json 200 "Logged out successfully"
  /\ CacheSet ("blacklist:" +:+ tok) "logged out" remaining ∈ log (snd r)
  /\ cache (snd r) !! ("blacklist:" +:+ tok)
     = Some ("logged out", now + remaining * 1000)
  /\ cache (snd r) !! ("refresh:" +:+ _id u) = None
  /\ forall req' now' authHeader,
       header_Authorization req' = Some authHeader ->
       String.prefix "Bearer " authHeader = true ->
       split " " authHeader !! 1%nat = Some tok ->
       now' < exp decoded * 1000 ->
       fst (authenticate jwt env req' now' (snd r))
       = Respond (json 401 "Session expired. Please login again").
Proof.
  intros Htok Hne Hu Hup Hdec Hexp r remaining. subst r.
  unfold logout, try_catch, logout_body, bind, ret, redis_set, redis_del.
  rewrite Htok, Hu, (bool_decide_eq_false_2 _ Hne), Hdec. fold remaining.
  destruct (decide (remaining > 0)) as [_|Hle]; [|unfold remaining in Hle; lia].
  rewrite Hup. world_simpl. rewrite Hup. world_simpl. rewrite Hup.
  cbn [fst snd]. world_simpl.
  assert (forall x, "refresh:" +:+ x <> "blacklist:" +:+ tok) as Hr by (intros x; discriminate).
  assert (forall x, "user:" +:+ x <> "blacklist:" +:+ tok) as Hus by (intros x; discriminate).
  assert (forall x, "user:" +:+ x <> "refresh:" +:+ x) as Hur by (intros x; discriminate).
  assert (delete ("user:" +:+ _id u)
            (delete ("refresh:" +:+ _id u)
               (<["blacklist:" +:+ tok := ("logged out", now + remaining * 1000)]> (cache w)))
          !! ("blacklist:" +:+ tok)
          = Some ("logged out", now + remaining * 1000)) as Hbl.
  { rewrite lookup_delete_ne by apply Hus. rewrite lookup_delete_ne by apply Hr.
    apply lookup_insert_eq. }
  split; [reflexivity|]. split; [set_solver|]. split; [exact Hbl|]. split.
  { rewrite lookup_delete_ne by apply Hur. apply lookup_delete_eq. }
  intros req' now' authHeader Hh Hpre Hsplit Hnow'.
  rewrite (authenticate_with_token req' now' _ authHeader tok Hh Hpre Hsplit Hne)
    by exact Hup.
  unfold cache_lookup. world_simpl. rewrite Hbl. cbn. unfold live. cbn.
  pose proof (Z.mul_div_le now 1000 ltac:(lia)) as Hfloor.
  destruct (decide (now' < now + remaining * 1000)) as [_|Hge];
    [reflexivity | unfold remaining in Hge; lia].
Qed.

(** C3, amended. A request whose header yields a token that is
    revoked, expired, malformed or wrongly signed is answered 401 in
    each case, with one of two messages: a live entry in the
    revocation registry and an expired token both give ["Session
    expired. Please login again"], whereas any other failure of
    [jwt.verify], such as a malformed token or an invalid signature,
    gives ["Invalid authentication token"]. *)
Theorem authenticate_rejects_invalid_token_with_401
    (req : Request) (now : Z) (w : World) (authHeader tok : string) :
  header_Authorization req = Some authHeader ->
  String.prefix "Bearer " authHeader = true ->
  split " " authHeader !! 1%nat = Some tok ->
  tok <> "" ->
  redis_up w = true ->
  let revoked := negb (falsy (cache_lookup w ("blacklist:" +:+ tok) now)) in
  let answer := fst (authenticate jwt env req now w) in
  (revoked = true ->
   answer = Respond (json 401 "Session expired. Please login again"))
  /\ (revoked = false ->
      jwt_verify jwt tok (JWT_SECRET env) now = inl TokenExpiredError ->
      answer = Respond (json 401 "Session expired. Please login again"))
  /\ (revoked = false ->
      forall msg,
        jwt_verify jwt tok (JWT_SECRET env) now = inl (JsonWebTokenError msg) ->
        answer = Respond (json 401 "Invalid authentication token")).
Proof.
  intros Hh Hpre Hsplit Hne Hup revoked answer. subst answer.
  rewrite (authenticate_with_token req now w authHeader tok) by done.
  fold revoked. split; [|split].
  - by intros ->.
  - by intros -> ->.
  - by intros -> msg ->.
Qed.
End TokenProperties.

(** The theorem on a run: the member logs in at [now0], logs out a
    second later, and the token is presented again a second after that. *)
Lemma logout_revokes_token_witness :
  let r := logout Scenario.jwt Scenario.logout_request (Scenario.now0 + 1000)
             Scenario.world_logged_in in
  fst r = json 200 "Logged out successfully"
  /\ cache (snd r) !! ("blacklist:" +:+ Scenario.access_token)
     = Some ("logged out", Scenario.now0 + 1000 + 899 * 1000)
  /\ cache (snd r) !! ("refresh:" +:+ Scenario.subject_id) = None
  /\ fst (authenticate Scenario.jwt Scenario.env
            (Scenario.bearer "GET" "/api/auth/me" Scenario.access_token)
            (Scenario.now0 + 2000) (snd r))
     = Respond (json 401 "Session expired. Please login again").
Proof.
  intros r.
  destruct (logout_revokes_token Scenario.jwt Scenario.env Scenario.logout_request
              (Scenario.now0 + 1000) Scenario.world_logged_in Scenario.access_token
              Scenario.subject
              (mkPayload Scenario.subject_id (Some member) 1700000000 1700000900)
              eq_refl ltac:(discriminate) eq_refl eq_refl eq_refl
              ltac:(vm_compute; reflexivity))
    as (Hres & _ & Hentry & Hrefresh & Hverify).
  split; [exact Hres|]. split; [exact Hentry|]. split; [exact Hrefresh|].
  apply (Hverify _ _ ("Bearer " +:+ Scenario.access_token)).
  - reflexivity.
  - reflexivity.
  - reflexivity.
  - vm_compute. reflexivity.
Defined.

(** C3, as the specification has it, fails: a revoked token and a
    malformed one are both answered 401, but not with the same answer. *)
Lemma authenticate_answers_differ_counterexample :
  let revoked := authenticate Scenario.jwt Scenario.env
                   (Scenario.bearer "GET" "/api/auth/me" Scenario.access_token)
                   (Scenario.now0 + 2000) Scenario.world_logged_out in
  let malformed := authenticate Scenario.jwt Scenario.env
                     (Scenario.bearer "GET" "/api/auth/me" "garbage")
                     (Scenario.now0 + 2000) Scenario.world_logged_out in
  fst revoked = Respond (json 401 "Session expired. Please login again")
  /\ fst malformed = Respond (json 401 "Invalid authentication token")
  /\ fst revoked <> fst malformed.
Proof. split; [|split]; [reflexivity | reflexivity | discriminate]. Qed.

(** The amended claim on the same deployment: the revoked token, the
    expired one and the forged one, presented after the logout. *)
Lemma authenticate_rejects_witness :
  fst (authenticate Scenario.jwt Scenario.env
         (Scenario.bearer "GET" "/api/auth/me" Scenario.access_token)
         (Scenario.now0 + 2000) Scenario.world_logged_out)
  = Respond (json 401 "Session expired. Please login again")
  /\ fst (authenticate Scenario.jwt Scenario.env
            (Scenario.bearer "GET" "/api/auth/me" Scenario.expired_token)
            (Scenario.now0 + 2000) Scenario.world_logged_out)
     = Respond (json 401 "Session expired. Please login again")
  /\ fst (authenticate Scenario.jwt Scenario.env
            (Scenario.bearer "GET" "/api/auth/me" Scenario.forged_token)
            (Scenario.now0 + 2000) Scenario.world_logged_out)
     = Respond (json 401 "Invalid authentication token").
Proof.
  split; [|split].
  - apply (proj1 (authenticate_rejects_invalid_token_with_401 Scenario.jwt Scenario.env
             (Scenario.bearer "GET" "/api/auth/me" Scenario.access_token)
             (Scenario.now0 + 2000) Scenario.world_logged_out
             ("Bearer " +:+ Scenario.access_token) Scenario.access_token
             eq_refl eq_refl eq_refl ltac:(discriminate) eq_refl)).
    reflexivity.
  - apply (proj1 (proj2 (authenticate_rejects_invalid_token_with_401 Scenario.jwt
             Scenario.env
             (Scenario.bearer "GET" "/api/auth/me" Scenario.expired_token)
             (Scenario.now0 + 2000) Scenario.world_logged_out
             ("Bearer " +:+ Scenario.expired_token) Scenario.expired_token
             eq_refl eq_refl eq_refl ltac:(discriminate) eq_refl))).
    + reflexivity.
    + reflexivity.
  - apply (proj2 (proj2 (authenticate_rejects_invalid_token_with_401 Scenario.jwt
             Scenario.env
             (Scenario.bearer "GET" "/api/auth/me" Scenario.forged_token)
             (Scenario.now0 + 2000) Scenario.world_logged_out
             ("Bearer " +:+ Scenario.forged_token) Scenario.forged_token
             eq_refl eq_refl eq_refl ltac:(discriminate) eq_refl))
             eq_refl "invalid signature").
    reflexivity.
Defined.

(** ** The route that is not there *)

Lemma seg_matches_Lit (l s x : string) :
  toLowerCase s = x -> seg_matches (Lit l) s = bool_decide (toLowerCase l = x).
Proof. by intros <-. Qed.

Lemma toLowerCase_nonempty (s x : string) :
  toLowerCase s = x -> x <> "" -> exists c s', s = String c s'.
Proof. destruct s as [|c s']; [by intros <-|eauto]. Qed.

(** A path that reads [/x/y/z] once letter case and a trailing slash
    are set aside has three segments that read [x], [y] and [z], and
    perhaps an empty fourth. *)
Lemma three_segments (segs : list string) (x y z : string) :
  without_trailing_slash (toLowerCase <$> segs) = [x; y; z] ->
  x <> "" -> y <> "" -> z <> "" ->
  exists a b c tail,
    segs = a :: b :: c :: tail
    /\ (tail = [] \/ tail = [""])
    /\ toLowerCase a = x /\ toLowerCase b = y /\ toLowerCase c = z.
Proof.
  intros H Hx Hy Hz.
  destruct segs as [|a [|b [|c [|d [|e tail]]]]]; cbn in H;
    repeat match type of H with
           | context [match toLowerCase ?s with _ => _ end] =>
               destruct (toLowerCase s) eqn:?; cbn in H
           end;
    simplify_eq; try done.
  - exists a, b, c, []. auto.
  - exists a, b, c, [d]. destruct d; [auto|discriminate].
Qed.

Lemma with_params_same (req : Request) :
  with_params (params_projectId req) (params_taskId req) (params_memberId req) req = req.
Proof. by destruct req. Qed.

Lemma match_mount_Lit l pat a rest x :
  toLowerCase a = x ->
  match_mount (Lit l :: pat) (a :: rest)
  = if bool_decide (toLowerCase l = x) then match_mount pat rest else None.
Proof. by intros <-. Qed.

Lemma match_route_Lit_mismatch l pat a rest x :
  toLowerCase a = x -> x <> "" -> toLowerCase l <> x ->
  match_route (Lit l :: pat) (a :: rest) = false.
Proof.
  intros Ha Hx Hl. unfold match_route.
  destruct (toLowerCase_nonempty a x Ha Hx) as (c & a' & ->).
  cbn [without_trailing_slash matches_all].
  rewrite (seg_matches_Lit l _ x Ha). by rewrite (bool_decide_eq_false_2 _ Hl).
Qed.


Section RoutingSteps.
Context (decode : string -> JsError + string).

Lemma run_layers_gate (g : Gate) rest options segs inherited req now w :
  run_layers decode (Use [] [mounted (gate g)] :: rest) options segs inherited req now w
  = match g (inherited req) now w with
    | (Through, w') => run_layers decode rest options segs inherited (inherited req) now w'
    | (Stop a, w') => (Done a, w')
    | (Raise err, w') => (Fail err, w')
    end.
Proof.
  cbn [run_layers match_mount bind_params chain fmap list_fmap]. unfold mounted, gate.
  by destruct (g (inherited req) now w) as [[| |]].
Qed.

Lemma run_layers_Use_skip pat hs rest options segs inherited req now w :
  match_mount pat segs = None ->
  run_layers decode (Use pat hs :: rest) options segs inherited req now w
  = run_layers decode rest options segs inherited req now w.
Proof. intros H. cbn [run_layers]. by rewrite H. Qed.

Lemma run_layers_Route_skip m pat hs rest options segs inherited req now w :
  match_route pat segs = false ->
  run_layers decode (Route m pat hs :: rest) options segs inherited req now w
  = run_layers decode rest options segs inherited req now w.
Proof. intros H. cbn [run_layers]. by rewrite H. Qed.

Lemma run_layers_mount l (r : Mounted) rest options a segs inherited req now w :
  toLowerCase a = toLowerCase l ->
  run_layers decode (Use [Lit l] [r] :: rest) options (a :: segs) inherited req now w
  = match r segs (inherited req) now w with
    | (Pass req', w') => run_layers decode rest options (a :: segs) inherited req' now w'
    | stopped => stopped
    end.
Proof.
  intros Ha. cbn [run_layers match_mount bind_params chain fmap list_fmap].
  rewrite (seg_matches_Lit l a _ Ha), bool_decide_eq_true_2 by done.
  by destruct (r segs (inherited req) now w) as [[| |]].
Qed.
End RoutingSteps.


Section Unrouted.
Context (jwt : Jsonwebtoken) (env : Env) (libs : AuthLibs) (out : Outside).

(** No route of the auth router is for [refresh-token]. *)
Lemma authRouter_refresh (c : string) (tail : list string) req now w :
  toLowerCase c = "refresh-token" ->
  Router (decodeURIComponent out) false (authRoutes jwt env libs out) (c :: tail) req now w
  = (Pass req, w).
Proof.
  intros Hc. unfold Router, authRoutes.
  rewrite !(run_layers_Route_skip)
    by (by apply (match_route_Lit_mismatch _ _ c tail "refresh-token")).
  cbn [run_layers]. by rewrite with_params_same.
Qed.

(** Nor has the main router anything for it, after the rate limiter. *)
Lemma mainRouter_refresh (b c : string) (tail : list string) req now w :
  toLowerCase b = "auth" ->
  toLowerCase c = "refresh-token" ->
  Router (decodeURIComponent out) true (mainRoutes jwt env libs out) (b :: c :: tail) req now w
  = match rateLimiter out req now w with
    | (Through, w') => (Pass req, w')
    | (Stop a, w') => (Done a, w')
    | (Raise err, w') => (Fail err, w')
    end.
Proof.
  intros Hb Hc. unfold Router, mainRoutes.
  rewrite run_layers_gate, !with_params_same.
  destruct (rateLimiter out req now w) as [[|a|err] w1]; [|done|done].
  rewrite (run_layers_mount _ "auth") by done.
  rewrite with_params_same, authRouter_refresh by done.
  rewrite !run_layers_Use_skip.
  - cbn [run_layers]. by rewrite with_params_same.
  - by rewrite (match_mount_Lit _ _ _ _ "auth").
  - by rewrite (match_mount_Lit _ _ _ _ "auth").
Qed.

(** C4, amended. There is no refresh operation. A request for
    [/api/auth/refresh-token], in any letter case, with or without a
    trailing slash and by any method, goes through the library
    middleware of the application and the rate limiter; if one of them
    answers it or raises an error, that is the answer, and otherwise
    the request matches no route and is answered 404 by the not-found
    handler. Nothing else has run: the registry record is not looked
    at. The record of a subject is written when a token pair is issued:
    [generateAuthTokens] signs an access token (15 minutes) and a
    refresh token (7 days) and, with one [set] command and no read,
    puts the new refresh token under [refresh:<subject>], to expire
    after 7 days, in place of whatever was there; it returns the pair. *)
Theorem refresh_unrouted_and_issue_overwrites_registry :
  (forall req now w,
     params_projectId req = "" -> params_taskId req = "" -> params_memberId req = "" ->
     without_trailing_slash (toLowerCase <$> segments (path req))
     = ["api"; "auth"; "refresh-token"] ->
     app jwt env libs out req now w
     = match run_gates (gates_of_api out) req now w with
       | (Through, w') => (Sent (notFoundHandler req), w')
       | (Stop a, w') => (a, w')
       | (Raise err, w') => (SentError (errorHandler (production out) err), w')
       end
     /\ status (notFoundHandler req) = 404)
  /\ (forall user now w,
        ud_id user <> "" ->
        redis_up w = true ->
        let pair :=
          mkAuthTokens
            (jwt_sign jwt (ud_id user, Some (ud_role user)) (JWT_SECRET env) 900 now)
            (jwt_sign jwt (ud_id user, None) (JWT_REFRESH_SECRET env) 604800 now) in
        let issued := generateAuthTokens jwt env user now w in
        fst issued = Ok pair
        /\ cache (snd issued)
           = <["refresh:" +:+ ud_id user := (refreshToken pair, now + 604800 * 1000)]>
               (cache w)
        /\ log (snd issued)
           = CacheSet ("refresh:" +:+ ud_id user) (refreshToken pair) 604800 :: log w).
Proof.
  split.
  - intros req now w Hp Ht Hm Hpath. split; [|reflexivity].
    assert (with_params "" "" "" req = req) as Hraw.
    { rewrite <- Hp at 1. rewrite <- Ht at 1. rewrite <- Hm at 1. apply with_params_same. }
    apply three_segments in Hpath as (a & b & c & tail & Hsegs & Htail & Ha & Hb & Hc);
      [|done..].
    unfold app, appLayers, gates_of_api. rewrite Hsegs. cbn [run_gates].
    do 5 (rewrite run_layers_gate, !Hraw;
          match goal with
          | |- context [?g out req now ?w0] =>
              lazymatch g with
              | rateLimiter => fail
              | _ => destruct (g out req now w0) as [[|?|?] ?]; [|done|done]
              end
          end).
    rewrite (run_layers_mount _ "api") by done.
    rewrite Hraw, mainRouter_refresh by done.
    destruct (rateLimiter out req now _) as [[|?|?] ?]; [|done|done].
    rewrite run_layers_Route_skip
      by (by apply (match_route_Lit_mismatch _ _ a _ "api")).
    cbn. by rewrite Hraw.
  - intros user now w Hid Hup pair issued. subst issued.
    unfold generateAuthTokens. rewrite (bool_decide_eq_false_2 _ Hid).
    unfold bind, redis_set, ret. rewrite Hup. done.
Qed.
End Unrouted.

(** C4, as the specification has it, fails: the member holds a refresh
    token that verifies and equals the registry record, yet the request
    that presents it for a refresh reaches no controller: the
    application answers 404, and the registry has not been looked at. *)
Lemma refresh_request_counterexample :
  cache_lookup Scenario.world_logged_in ("refresh:" +:+ Scenario.subject_id)
    (Scenario.now0 + 1000)
  = Some Scenario.refresh_token
  /\ jwt_verify Scenario.jwt Scenario.refresh_token (JWT_REFRESH_SECRET Scenario.env)
       (Scenario.now0 + 1000)
     = inr (mkPayload Scenario.subject_id None 1700000000 1700604800)
  /\ app Scenario.jwt Scenario.env Cases.libs Cases.outside Scenario.refresh_request
       (Scenario.now0 + 1000) Scenario.world_logged_in
     = (Sent (json 404 "Route POST /api/auth/refresh-token not found"),
        Scenario.world_logged_in).
Proof. repeat split. Qed.

(** The theorem on a run: the refresh request of the member, spelt in
    capitals and with a trailing slash, after the login that issued the
    tokens. *)
Lemma refresh_unrouted_witness :
  let req := Scenario.bearer "POST" "/API/Auth/Refresh-Token/" Scenario.refresh_token in
  app Scenario.jwt Scenario.env Cases.libs Cases.outside req (Scenario.now0 + 1000)
    Scenario.world_logged_in
  = (Sent (json 404 "Route POST /API/Auth/Refresh-Token/ not found"),
     Scenario.world_logged_in)
  /\ fst (generateAuthTokens Scenario.jwt Scenario.env Scenario.member_doc
            Scenario.now0 Scenario.world0)
     = Ok (mkAuthTokens Scenario.access_token Scenario.refresh_token)
  /\ cache Scenario.world_logged_in !! ("refresh:" +:+ Scenario.subject_id)
     = Some (Scenario.refresh_token, Scenario.now0 + 604800 * 1000).
Proof.
  intros req.
  destruct (refresh_unrouted_and_issue_overwrites_registry Scenario.jwt Scenario.env
              Cases.libs Cases.outside) as [Hroute Hissue].
  split.
  - rewrite (proj1 (Hroute req (Scenario.now0 + 1000) Scenario.world_logged_in
                      eq_refl eq_refl eq_refl eq_refl)).
    reflexivity.
  - destruct (Hissue Scenario.member_doc Scenario.now0 Scenario.world0
                ltac:(discriminate) eq_refl) as (Hpair & Hcache & _).
    split; [exact Hpair|].
    change Scenario.world_logged_in
      with (snd (generateAuthTokens Scenario.jwt Scenario.env Scenario.member_doc
                   Scenario.now0 Scenario.world0)).
    rewrite Hcache. apply lookup_insert_eq.
Defined.

(** * Further properties *)

(** ** Reconnecting to Redis *)

(** X1. The reconnection strategy gives up exactly when more than five
    retries have been made; until then it waits a hundred milliseconds
    per retry made, so never more than half a second: the ceiling of
    5000 in the code is never reached. *)
Theorem reconnectStrategy_waits_at_most_500 (retries : Z) :
  0 <= retries ->
  (reconnectStrategy retries = inl (Error "Connection failed") <-> 5 < retries)
  /\ (forall delay, reconnectStrategy retries = inr delay ->
      retries <= 5 /\ delay = retries * 100 /\ 0 <= delay <= 500).
Proof.
  intros Hpos. unfold reconnectStrategy.
  destruct (Z.gtb_spec retries 5) as [Hgt|Hle].
  - split; [split; [lia | reflexivity]|]. discriminate.
  - split; [split; [discriminate | lia]|].
    intros delay [= <-]. lia.
Qed.

Lemma reconnectStrategy_witness :
  reconnectStrategy 3 = inr 300 /\ reconnectStrategy 6 = inl (Error "Connection failed").
Proof.
  destruct (reconnectStrategy_waits_at_most_500 6 ltac:(lia)) as [Hstop _].
  split; [reflexivity|]. apply Hstop. lia.
Defined.

(** ** Roles and project types *)

(** X2. [authorize] passes a request on, unchanged, exactly when it
    carries an identity whose role is among the allowed ones; a list
    with all three roles, as on the task creation route, lets every
    identified request through. *)
Theorem authorize_passes_iff_role_allowed (allowedRoles : list TUserRole) (req : Request) :
  (forall req', authorize allowedRoles req = Next req' ->
     req' = req /\ exists u, user req = Some u /\ role u ∈ allowedRoles)
  /\ (forall u, user req = Some u -> role u ∈ allowedRoles ->
      authorize allowedRoles req = Next req)
  /\ (forall u, user req = Some u ->
      authorize [admin; manager; member] req = Next req).
Proof.
  unfold authorize, includes. split; [|split].
  - intros req'. destruct (user req) as [u|]; [|discriminate].
    destruct (decide (role u ∈ allowedRoles)) as [Hin|Hout].
    + rewrite (bool_decide_eq_true_2 _ Hin). cbn. intros [= <-]. eauto.
    + rewrite (bool_decide_eq_false_2 _ Hout). discriminate.
  - intros u -> Hin. by rewrite (bool_decide_eq_true_2 _ Hin).
  - intros u ->. rewrite bool_decide_eq_true_2; [done|].
    destruct (role u); set_solver.
Qed.

Lemma authorize_passes_witness :
  authorize [admin; manager] (Scenario.get_project Scenario.owner)
  = Next (Scenario.get_project Scenario.owner)
  /\ authorize [admin; manager; member] (Scenario.get_project Scenario.subject)
     = Next (Scenario.get_project Scenario.subject).
Proof.
  split.
  - apply (proj1 (proj2 (authorize_passes_iff_role_allowed [admin; manager]
                           (Scenario.get_project Scenario.owner))) Scenario.owner).
    + reflexivity.
    + refine (bool_decide_unpack _ _). vm_compute. exact I.
  - apply (proj2 (proj2 (authorize_passes_iff_role_allowed [admin; manager; member]
                           (Scenario.get_project Scenario.subject))) Scenario.subject).
    reflexivity.
Defined.

(** X3. The hard-coded list of [validateProjectType] agrees with the
    [ProjectType] enum: the middleware passes a request on, unchanged,
    exactly when [isProjectType] accepts its [type]; an absent type is
    rejected with 400. *)
Theorem validateProjectType_agrees_with_isProjectType (req : Request) :
  (validateProjectType req = Next req <-> isProjectType (body_type req) = true)
  /\ (isProjectType (body_type req) = false ->
      validateProjectType req
      = Respond (json 400 "Invalid project type. Must be one of: frontend, backend, ui/ux"))
  /\ isProjectType "" = false.
Proof.
  unfold validateProjectType, isProjectType, ProjectType_values.
  split; [|split; [|reflexivity]].
  - destruct (includes _ (body_type req)) eqn:Hin.
    + assert (body_type req <> "") as Hne.
      { intros Heq. rewrite Heq in Hin. discriminate. }
      rewrite (bool_decide_eq_false_2 _ Hne). done.
    + rewrite orb_true_r. split; discriminate.
  - intros ->. by rewrite orb_true_r.
Qed.

Lemma validateProjectType_witness :
  validateProjectType Scenario.anonymous
  = Respond (json 400 "Invalid project type. Must be one of: frontend, backend, ui/ux").
Proof.
  apply (proj1 (proj2 (validateProjectType_agrees_with_isProjectType Scenario.anonymous))).
  reflexivity.
Defined.

(** ** Creating a project through its route *)

Lemma validateProjectType_agrees_with_isProjectType_aux (req : Request) :
  (isProjectType (body_type req) = true -> validateProjectType req = Next req)
  /\ (isProjectType (body_type req) = false ->
      validateProjectType req
      = Respond (json 400 "Invalid project type. Must be one of: frontend, backend, ui/ux")).
Proof.
  unfold validateProjectType, isProjectType, ProjectType_values. split.
  - intros Hin.
    assert (body_type req <> "") as Hne.
    { intros Heq. rewrite Heq in Hin. discriminate. }
    rewrite (bool_decide_eq_false_2 _ Hne). cbn [orb].
    unfold ProjectType_values in Hin. by rewrite Hin.
  - intros ->. by rewrite orb_true_r.
Qed.

(** X4. With Redis reachable, [POST /projects] answers 201 exactly when
    the requester is identified as admin or manager, the type is a
    project type and the body has a name; the project is then stored
    under the new id with the requester as creator and only member.
    Every other request is answered 403, 400 or, for want of a name,
    500, and leaves the stores as they were. *)
Theorem post_projects_creates_iff_privileged_and_typed
    (newId : string) (req : Request) (now : Z) (w : World) :
  redis_up w = true ->
  let r := post_projects newId req now w in
  let privileged :=
    exists u, user req = Some u /\ role u <> member
              /\ isProjectType (body_type req) = true
              /\ body_name req <> ""
              /\ projects (snd r) !! newId
                 = Some (mkProject newId (body_name req) (body_description req)
                           (body_type req) (_id u) [_id u]) in
  (status (fst r) = 201 <-> privileged)
  /\ (status (fst r) <> 201 ->
      (status (fst r) = 403 \/ status (fst r) = 400
       \/ fst r = json 500 "Failed to create project" /\ body_name req = "")
      /\ snd r = w).
Proof.
  intros Hup r privileged. subst r privileged.
  unfold post_projects, via, stateless, validateProjectCreation.
  destruct (user req) as [u|] eqn:Hu; cycle 1.
  { cbn. split; [split; [discriminate | by intros (u & [=] & _)]|]. auto. }
  destruct (decide (role u = member)) as [Hm|Hm].
  { rewrite Hm. cbn. split; [split; [discriminate|]|auto].
    intros (u' & [= <-] & Hne & _). done. }
  assert (negb (bool_decide (role u = admin)) && negb (bool_decide (role u = manager))
          = false) as ->.
  { destruct (role u); done. }
  pose proof (validateProjectType_agrees_with_isProjectType_aux req) as Htype.
  destruct (isProjectType (body_type req)) eqn:Hty.
  - rewrite (proj1 Htype eq_refl).
    rewrite (createProject_run newId req now w u Hu), Hup.
    assert (projectSchema_accepts (body_name req) (body_type req)
            = negb (bool_decide (body_name req = ""))) as ->.
    { unfold projectSchema_accepts.
      change (includes projectSchema_type_enum (body_type req))
        with (isProjectType (body_type req)).
      rewrite Hty, andb_true_r.
      destruct (decide (body_type req = "")) as [Heq|Hne].
      - rewrite Heq in Hty. discriminate.
      - by rewrite (bool_decide_eq_false_2 _ Hne), andb_true_r. }
    destruct (decide (body_name req = "")) as [Hname|Hname].
    + rewrite (bool_decide_eq_true_2 _ Hname). cbn.
      split; [split; [discriminate|]|auto].
      intros (_ & _ & _ & _ & Hne & _). done.
    + rewrite (bool_decide_eq_false_2 _ Hname).
      cbn [negb fst snd status]. split; [|done]. split; [|done]. intros _.
      exists u. split; [done|]. split; [done|]. split; [done|]. split; [done|].
      cbn. apply lookup_insert_eq.
  - rewrite (proj2 Htype eq_refl). cbn. split; [|auto].
    split; [discriminate|]. by intros (_ & _ & _ & [=] & _).
Qed.

Lemma post_projects_witness :
  status (fst (post_projects Scenario.new_project_id Scenario.create_project
                 Scenario.now0 Scenario.world0)) = 201.
Proof.
  apply (proj1 (post_projects_creates_iff_privileged_and_typed Scenario.new_project_id
                  Scenario.create_project Scenario.now0 Scenario.world0 eq_refl)).
  exists Scenario.owner. split; [reflexivity|]. split; [discriminate|].
  split; [reflexivity|]. split; [discriminate|]. reflexivity.
Defined.

(** ** Writes and the cache commands after them *)

(** X5. [createProject] saves the project before it touches the cache.
    With Redis unreachable, a request whose body the schema accepts has
    been saved when the [del] command rejects: the answer is 500, and
    the project is in the datastore all the same. *)
Theorem createProject_saves_before_cache_failure
    (newId : string) (req : Request) (now : Z) (w : World) (u : IUserResponse) :
  user req = Some u ->
  body_name req <> "" ->
  body_type req ∈ projectSchema_type_enum ->
  redis_up w = false ->
  let r := createProject newId req now w in
  fst r = json 500 "Failed to create project"
  /\ projects (snd r) !! newId
     = Some (mkProject newId (body_name req) (body_description req) (body_type req)
               (_id u) [_id u])
  /\ cache (snd r) = cache w.
Proof.
  intros Hu Hname Htype Hup r. subst r.
  rewrite (createProject_run newId req now w u Hu), Hup.
  rewrite (proj2 (projectSchema_accepts_iff _ _)) by done.
  cbn [fst snd]. world_simpl. split; [done|]. split; [apply lookup_insert_eq | done].
Qed.

Lemma createProject_saves_witness :
  let r := createProject Scenario.new_project_id Scenario.create_project
             Scenario.now0 Scenario.world_down in
  fst r = json 500 "Failed to create project"
  /\ (createdBy <$> projects (snd r) !! Scenario.new_project_id)
     = Some Scenario.owner_id.
Proof.
  intros r.
  destruct (createProject_saves_before_cache_failure Scenario.new_project_id
              Scenario.create_project Scenario.now0 Scenario.world_down Scenario.owner
              eq_refl ltac:(discriminate)
              ltac:(refine (bool_decide_unpack _ _); vm_compute; exact I) eq_refl)
    as (Hres & Hsaved & _).
  split; [exact Hres|]. subst r. cbv zeta in Hsaved. by rewrite Hsaved.
Defined.

Lemma some_eq_elem_of (l : list string) (x : string) :
  some l (fun member => bool_decide (member = x)) = true <-> x ∈ l.
Proof.
  unfold some. rewrite existsb_exists. split.
  - intros (m & Hin & Hm). apply bool_decide_eq_true in Hm as ->.
    by apply list_elem_of_In.
  - intros Hin. exists x. split; [by apply list_elem_of_In | by apply bool_decide_eq_true].
Qed.

(** X6. [addProjectMember] is idempotent on the member list. Adding a
    user who is not a member appends them and saves; adding one who
    already is a member changes nothing in the datastore and still
    answers 200. Either way the user is a member afterwards, and a
    member list without repetitions stays without repetitions. *)
Theorem addProjectMember_adds_once
    (req : Request) (now : Z) (w : World) (p : Project) (u : IUserResponse) :
  projectDocument req = Some p ->
  userToAdd req = Some u ->
  redis_up w = true ->
  let r := addProjectMember req now w in
  exists p',
    fst r = mkResponse 200 (MsgData "Member added successfully" p')
    /\ _id u ∈ members p'
    /\ (_id u ∈ members p -> p' = p /\ projects (snd r) = projects w)
    /\ (_id u ∉ members p ->
        members p' = members p ++ [_id u]
        /\ projects (snd r) !! p_id p = Some p')
    /\ (NoDup (members p) -> NoDup (members p')).
Proof.
  intros Hp Hu Hup r. subst r.
  unfold addProjectMember, try_catch, addProjectMember_body, bind, ret,
    Project_save, redis_del.
  rewrite Hp, Hu.
  destruct (some (members p) (fun member => bool_decide (member = _id u))) eqn:Hsome.
  - apply some_eq_elem_of in Hsome. cbn [negb]. world_simpl.
    rewrite Hup. world_simpl. rewrite Hup. world_simpl. rewrite Hup. cbn [fst snd].
    exists p. world_simpl. repeat split; try done.
  - assert (_id u ∉ members p) as Hout.
    { intros Hin. apply some_eq_elem_of in Hin. congruence. }
    cbn [negb]. world_simpl.
    rewrite Hup. world_simpl. rewrite Hup. world_simpl. rewrite Hup. cbn [fst snd].
    exists (push_member (_id u) p). world_simpl. split; [done|].
    split; [cbn; set_solver|]. split; [done|]. split.
    + intros _. split; [done|]. cbn. apply lookup_insert_eq.
    + intros Hnd. cbn. apply NoDup_app. split; [done|]. split.
      * intros x Hx Hx'. apply list_elem_of_singleton in Hx' as ->. done.
      * apply NoDup_singleton.
Qed.

Lemma addProjectMember_adds_once_witness :
  let r := addProjectMember Scenario.add_subject_prepared Scenario.now0 Scenario.world0 in
  exists p',
    fst r = mkResponse 200 (MsgData "Member added successfully" p')
    /\ members p' = [Scenario.owner_id; Scenario.subject_id]
    /\ projects (snd r) !! Scenario.project_id = Some p'.
Proof.
  intros r.
  destruct (addProjectMember_adds_once Scenario.add_subject_prepared Scenario.now0
              Scenario.world0 Scenario.p1 Scenario.subject eq_refl eq_refl eq_refl)
    as (p' & Hres & _ & _ & Hnew & _).
  exists p'. split; [exact Hres|].
  apply Hnew. refine (bool_decide_unpack _ _). vm_compute. exact I.
Defined.

(** The project [removeProjectMember] saves, and what the run leaves. *)
Lemma removeProjectMember_run (req : Request) (now : Z) (w : World) (p : Project) :
  projectDocument req = Some p ->
  redis_up w = true ->
  let p' := filter_members
              (fun member => negb (bool_decide (member = params_memberId req))) p in
  let r := removeProjectMember req now w in
  fst r = mkResponse 200 (MsgData "Member removed successfully" p')
  /\ projects (snd r) = <[p_id p := p']> (projects w)
  /\ redis_up (snd r) = true.
Proof.
  intros Hp Hup. cbn zeta.
  unfold removeProjectMember, try_catch, removeProjectMember_body, bind, ret,
    Project_save, redis_del.
  rewrite Hp. world_simpl. rewrite Hup. world_simpl. rewrite Hup. world_simpl.
  rewrite Hup. cbn [fst snd]. world_simpl. done.
Qed.

Lemma filter_members_elem (memberId : string) (p : Project) (x : string) :
  x ∈ members (filter_members (fun member => negb (bool_decide (member = memberId))) p)
  <-> x ∈ members p /\ x <> memberId.
Proof.
  cbn. rewrite list_elem_of_In, filter_In, <- list_elem_of_In.
  by rewrite negb_true_iff, bool_decide_eq_false.
Qed.

(** X7. [removeProjectMember] saves the project with every occurrence
    of the named member taken out and the other members kept, in their
    order; a member list that does not hold the named user is saved as
    it is. The creator field is not touched, so a creator who removes
    themselves stays the creator without being a member. *)
Theorem removeProjectMember_removes_only_named
    (req : Request) (now : Z) (w : World) (p : Project) :
  projectDocument req = Some p ->
  redis_up w = true ->
  let r := removeProjectMember req now w in
  exists p',
    fst r = mkResponse 200 (MsgData "Member removed successfully" p')
    /\ projects (snd r) !! p_id p = Some p'
    /\ createdBy p' = createdBy p
    /\ (forall x, x ∈ members p' <-> x ∈ members p /\ x <> params_memberId req)
    /\ members p' `sublist_of` members p
    /\ (params_memberId req ∉ members p -> members p' = members p).
Proof.
  intros Hp Hup r. subst r.
  destruct (removeProjectMember_run req now w p Hp Hup) as (Hres & Hprojects & _).
  eexists. split; [exact Hres|]. split; [rewrite Hprojects; apply lookup_insert_eq|].
  split; [reflexivity|]. split; [intros x; apply filter_members_elem|]. split.
  - cbn. induction (members p) as [|m l IH]; [constructor|].
    cbn. destruct (negb _); by constructor.
  - intros Hout. cbn. induction (members p) as [|m l IH]; [reflexivity|].
    cbn. assert (m <> params_memberId req) as Hne by set_solver.
    rewrite (bool_decide_eq_false_2 _ Hne). cbn. f_equal. apply IH. set_solver.
Qed.

Lemma removeProjectMember_witness :
  let r := removeProjectMember
             (set_projectDocument Scenario.p1 Scenario.remove_owner)
             Scenario.now0 Scenario.world0 in
  exists p',
    projects (snd r) !! Scenario.project_id = Some p'
    /\ createdBy p' = Scenario.owner_id
    /\ Scenario.owner_id ∉ members p'.
Proof.
  intros r.
  destruct (removeProjectMember_removes_only_named
              (set_projectDocument Scenario.p1 Scenario.remove_owner)
              Scenario.now0 Scenario.world0 Scenario.p1 eq_refl eq_refl)
    as (p' & _ & Hsaved & Hcreator & Hmem & _ & _).
  exists p'. split; [exact Hsaved|]. split; [exact Hcreator|].
  intros Hin. apply Hmem in Hin as [_ Hne]. by apply Hne.
Defined.

(** All that [removeProjectMember] does to the cache is three [del]
    commands, each of one key by its exact name. *)
Lemma removeProjectMember_cache req now w p :
  projectDocument req = Some p ->
  redis_up w = true ->
  cache (snd (removeProjectMember req now w))
  = delete ("projects:user:" +:+ params_memberId req)
      (delete ("project:" +:+ p_id p +:+ ":*")
         (delete ("projects:user:" +:+ tpl (_id <$> user req)) (cache w))).
Proof.
  intros Hp Hup.
  unfold removeProjectMember, try_catch, removeProjectMember_body, bind, ret,
    Project_save, redis_del.
  rewrite Hp. world_simpl. rewrite Hup. world_simpl. rewrite Hup. world_simpl.
  rewrite Hup. reflexivity.
Qed.

(** X8. Removal does not reach the cached decisions. If a member's
    allow is cached for the project when [removeProjectMember] removes
    them, the datastore no longer lists them, yet the project check
    still lets them through, from the cache and without a datastore
    read, for as long as the entry lives. *)
Theorem removeProjectMember_leaves_cached_allow
    (req req' : Request) (now now' : Z) (w : World) (p : Project) (u : IUserResponse) :
  projectDocument req = Some p ->
  redis_up w = true ->
  user req' = Some u ->
  params_memberId req = _id u ->
  params_projectId req' = p_id p ->
  cache_lookup w (project_cacheKey req') now' = Some "true" ->
  let w1 := snd (removeProjectMember req now w) in
  (exists p', projects w1 !! p_id p = Some p' /\ _id u ∉ members p')
  /\ validateProjectAccess req' now' w1
     = (Next req', emit (CacheGet (project_cacheKey req')) w1).
Proof.
  intros Hp Hup Hu Hmid Hpid Hc w1.
  destruct (removeProjectMember_run req now w p Hp Hup) as (_ & Hprojects & Hup1).
  fold w1 in Hprojects, Hup1. split.
  { eexists. split; [rewrite Hprojects; apply lookup_insert_eq|].
    intros Hin. apply filter_members_elem in Hin as [_ Hne]. by rewrite Hmid in Hne. }
  apply validateProjectAccess_hit_true.
  - exact Hup1.
  - rewrite <- Hc. unfold cache_lookup. subst w1.
    rewrite (removeProjectMember_cache req now w p) by done.
    unfold project_cacheKey. rewrite Hpid.
    rewrite !lookup_delete_ne; [done | | |].
    + cbn. discriminate.
    + cbn. intros [= H]. change ("" +:+ ?x) with x in H.
      apply (append_inv_head (p_id p)) in H. discriminate.
    + cbn. discriminate.
Qed.

(** The theorem on a run: the member, in the project, has asked for it
    and been let through; the owner removes them a second later; a
    second after that the member asks again. *)
Lemma removeProjectMember_leaves_cached_allow_witness :
  let w := snd (validateProjectAccess (Scenario.get_project Scenario.subject)
                  Scenario.now0 Cases.world_joined) in
  let removal :=
    mkRequest "DELETE" "" None Scenario.project_id "" Scenario.subject_id "" "" "" ""
      (Some Scenario.owner) None (Some Cases.p1_joined) None None None in
  let w1 := snd (removeProjectMember removal (Scenario.now0 + 1000) w) in
  (members <$> projects w1 !! Scenario.project_id) = Some [Scenario.owner_id]
  /\ decision_of (fst (validateProjectAccess (Scenario.get_project Scenario.subject)
                         (Scenario.now0 + 2000) w1)) = Some allow.
Proof.
  intros w removal w1.
  destruct (removeProjectMember_leaves_cached_allow removal
              (Scenario.get_project Scenario.subject)
              (Scenario.now0 + 1000) (Scenario.now0 + 2000) w Cases.p1_joined
              Scenario.subject eq_refl eq_refl eq_refl eq_refl eq_refl eq_refl)
    as [_ Hpass].
  split; [reflexivity|]. fold w1 in Hpass. by rewrite Hpass.
Defined.

(** ** Ownership *)








(** ** Reading a project through its route *)

Section ReadProjectProperties.
Context (populated_response : Project -> World -> exn + Project).

Lemma getProjectById_cache (req : Request) (now : Z) (w : World) :
  cache (snd (getProjectById populated_response req now w)) = cache w
  /\ redis_up (snd (getProjectById populated_response req now w)) = redis_up w
  /\ projects (snd (getProjectById populated_response req now w)) = projects w.
Proof.
  unfold getProjectById, try_catch, getProjectById_body, bind, ret, populate_and_respond.
  destruct (projectDocument req) as [p|]; [|done].
  by destruct (populated_response p w).
Qed.

(** X12. While an allow is cached for a member, [GET
    /projects/:projectId] cannot show them the project: the access
    check passes the request on from the cache without attaching the
    project, and [getProjectById] answers 404 ["Project not found"],
    although the project exists. This is what every repetition of a
    member's first request meets for the next hour, whatever that first
    request was answered. *)
Theorem get_project_by_id_cached_allow_answers_404
    (req : Request) (now now' : Z) (w : World) (p : Project) (u : IUserResponse) :
  redis_up w = true ->
  projectDocument req = None ->
  user req = Some u ->
  cache_lookup w (project_cacheKey req) now = None ->
  projects w !! params_projectId req = Some p ->
  _id u ∈ members p ->
  now' < now + 3600 * 1000 ->
  let first := get_project_by_id populated_response req now w in
  projects (snd first) !! params_projectId req = Some p
  /\ fst (get_project_by_id populated_response req now' (snd first))
     = json 404 "Project not found".
Proof.
  intros Hup Hnone Hu Hc Hp Hin Hlt first. subst first.
  unfold get_project_by_id, via.
  rewrite (validateProjectAccess_miss req now w p); try done; cycle 1.
  { by rewrite Hc. }
  { by rewrite Hc. }
  rewrite Hu. cbn [fmap option_fmap option_map from_option].
  unfold includes. rewrite (bool_decide_eq_true_2 _ Hin).
  match goal with
  | |- context [getProjectById _ ?r now ?w0] =>
      destruct (getProjectById_cache r now w0) as (Hcache & Hup1 & Hprojects);
      destruct (getProjectById populated_response r now w0) as [res1 w1]
  end.
  cbn [fst snd] in *. split; [by rewrite Hprojects|].
  rewrite (validateProjectAccess_hit_true req now' w1); cycle 1.
  { by rewrite Hup1. }
  { apply cache_lookup_live with (e := now + 3600 * 1000); [|exact Hlt].
    rewrite Hcache. cbn. apply lookup_insert_eq. }
  unfold getProjectById, try_catch, getProjectById_body, ret. by rewrite Hnone.
Qed.
End ReadProjectProperties.

Lemma get_project_by_id_witness :
  let respond := fun (p : Project) (_ : World) => @inr exn Project p in
  let first := get_project_by_id respond (Scenario.get_project Scenario.owner)
                 Scenario.now0 Scenario.world0 in
  fst (get_project_by_id respond (Scenario.get_project Scenario.owner)
         (Scenario.now0 + 1000) (snd first))
  = json 404 "Project not found".
Proof.
  intros respond first.
  destruct (get_project_by_id_cached_allow_answers_404 respond
              (Scenario.get_project Scenario.owner) Scenario.now0 (Scenario.now0 + 1000)
              Scenario.world0 Scenario.p1 Scenario.owner
              eq_refl eq_refl eq_refl eq_refl eq_refl
              ltac:(refine (bool_decide_unpack _ _); vm_compute; exact I)
              ltac:(vm_compute; reflexivity))
    as (_ & H404).
  exact H404.
Defined.

(** ** Tasks addressed through the wrong project *)



(** ** Errors *)

(** X14. The error handler answers an [AppError] with its own status
    code and message, and anything else with status 500 and a fixed
    message. In production the answer carries no stack, so the answer
    to an unexpected error says nothing about the error; outside
    production the stack is always sent. *)
Theorem errorHandler_hides_unexpected_errors (production : bool) (err : JsError) :
  (forall e stack, err = IsAppError e stack ->
     fst (errorHandler production err) = statusCode e
     /\ eb_message (snd (errorHandler production err)) = ae_message e)
  /\ (forall message stack, err = OtherError message stack ->
      production = true ->
      errorHandler production err
      = (500, mkErrorBody "Internal server error" None))
  /\ (production = true -> eb_stack (snd (errorHandler production err)) = None)
  /\ (production = false -> is_Some (eb_stack (snd (errorHandler production err)))).
Proof.
  split; [|split; [|split]].
  - by intros e stack ->.
  - by intros message stack -> ->.
  - intros ->. by destruct err.
  - intros ->. destruct err; cbn; eauto.
Qed.

Lemma errorHandler_witness :
  errorHandler true (OtherError "connect ECONNREFUSED 10.0.0.5:27017" "at connect")
  = (500, mkErrorBody "Internal server error" None)
  /\ fst (errorHandler true (IsAppError Errors_NotFound "at handler")) = 404.
Proof.
  split.
  - apply (proj1 (proj2 (errorHandler_hides_unexpected_errors true
             (OtherError "connect ECONNREFUSED 10.0.0.5:27017" "at connect")))
             "connect ECONNREFUSED 10.0.0.5:27017" "at connect"); reflexivity.
  - apply (proj1 (errorHandler_hides_unexpected_errors true
             (IsAppError Errors_NotFound "at handler")) Errors_NotFound "at handler").
    reflexivity.
Defined.

Lemma status_of_code_range (lo : Z) (n : nat) (expected : string) :
  forallb (fun c => bool_decide (ae_status (new_AppError "" c) = expected))
          (seqZ lo (Z.of_nat n)) = true ->
  forall message c, lo <= c < lo + Z.of_nat n ->
    ae_status (new_AppError message c) = expected.
Proof.
  intros Hall message c Hc. rewrite forallb_forall in Hall.
  specialize (Hall c). rewrite <- list_elem_of_In, elem_of_seqZ in Hall.
  specialize (Hall ltac:(lia)). by apply bool_decide_eq_true in Hall.
Qed.

(** X15. An [AppError] is marked ["fail"] when its status code is a
    client error, 400 to 499, and ["error"] when it is a server error,
    500 to 599; every entry of the [Errors] table is operational. *)
Theorem AppError_status_by_code_class (message : string) (code : Z) :
  (400 <= code <= 499 -> ae_status (new_AppError message code) = "fail")
  /\ (500 <= code <= 599 -> ae_status (new_AppError message code) = "error")
  /\ statusCode (new_AppError message code) = code
  /\ isOperational (new_AppError message code) = true.
Proof.
  split; [|split; [|split; reflexivity]].
  - intros Hc. apply (status_of_code_range 400 100); [by vm_compute | lia].
  - intros Hc. apply (status_of_code_range 500 100); [by vm_compute | lia].
Qed.

Lemma AppError_status_witness :
  ae_status Errors_Conflict = "fail" /\ ae_status Errors_InternalServerError = "error".
Proof.
  split.
  - apply (proj1 (AppError_status_by_code_class "Conflict" 409)). lia.
  - apply (proj1 (proj2 (AppError_status_by_code_class "Internal server error" 500))). lia.
Defined.

(** ** Authentication *)

Section AuthenticateProperties.
Context (jwt : Jsonwebtoken) (env : Env).

Lemma authenticate_run_ok req now w tok decoded ud :
  authenticates jwt env req now w tok decoded ud ->
  authenticate jwt env req now w
  = (Next (set_user_token (toResponseUser ud) tok req),
     emit (DbRead "users" (jp_id decoded)) (emit (CacheGet ("blacklist:" +:+ tok)) w)).
Proof.
  intros (authHeader & Hh & Hpre & Hsplit & Hne & Hup & Hbl & Hver & Hud).
  unfold authenticate, try_catch, authenticate_body, bind, ret, redis_get,
    lift_throwing, throw, User_findById.
  rewrite Hh, Hpre, Hsplit. cbn [negb falsy tpl default from_option id].
  rewrite (bool_decide_eq_false_2 _ Hne), Hup, Hbl. cbn [negb].
  rewrite Hver. unfold ret. world_simpl. by rewrite Hud.
Qed.

Lemma authenticate_next_inv req now w req' w' :
  authenticate jwt env req now w = (Next req', w') ->
  exists tok decoded ud,
    authenticates jwt env req now w tok decoded ud
    /\ req' = set_user_token (toResponseUser ud) tok req
    /\ w' = emit (DbRead "users" (jp_id decoded))
              (emit (CacheGet ("blacklist:" +:+ tok)) w).
Proof.
  unfold authenticate, try_catch, authenticate_body, bind, ret, redis_get,
    lift_throwing, throw, User_findById.
  destruct (header_Authorization req) as [authHeader|] eqn:Hh; [|done].
  destruct (String.prefix "Bearer " authHeader) eqn:Hpre; [|done]. cbn [negb].
  destruct (split " " authHeader !! 1%nat) as [tok|] eqn:Hsplit; [|done].
  cbn [falsy tpl default from_option id].
  destruct (decide (tok = "")) as [->|Hne]; [done|].
  rewrite (bool_decide_eq_false_2 _ Hne).
  destruct (redis_up w) eqn:Hup; [|done].
  destruct (falsy (cache_lookup w ("blacklist:" +:+ tok) now)) eqn:Hbl; [|done].
  cbn [negb].
  destruct (jwt_verify jwt tok (JWT_SECRET env) now) as [error|decoded] eqn:Hver.
  { unfold authenticate_catch.
    destruct (instanceof_TokenExpiredError error); [done|].
    by destruct (instanceof_JsonWebTokenError error). }
  unfold ret. world_simpl.
  destruct (users w !! jp_id decoded) as [ud|] eqn:Hud;
    [|by destruct (castsToObjectId (jp_id decoded))].
  intros [= <- <-]. exists tok, decoded, ud. split; [|done].
  exists authHeader. done.
Qed.

(** The answer of [authenticate] depends on the header of the request
    and on what the cache and the users collection hold, and on nothing
    else; what it attaches to the request replaces what was attached. *)
Lemma authenticate_answer_ext req1 req2 now w1 w2 :
  header_Authorization req1 = header_Authorization req2 ->
  (forall u t, set_user_token u t req1 = set_user_token u t req2) ->
  redis_up w1 = redis_up w2 ->
  cache w1 = cache w2 ->
  users w1 = users w2 ->
  fst (authenticate jwt env req1 now w1) = fst (authenticate jwt env req2 now w2).
Proof.
  intros Hh Hset Hup Hcache Husers.
  unfold authenticate, try_catch, authenticate_body, bind, ret, redis_get,
    lift_throwing, throw, User_findById, cache_lookup.
  rewrite Hh.
  destruct (header_Authorization req2) as [authHeader|]; [|done].
  destruct (String.prefix "Bearer " authHeader); [|done]. cbn [negb].
  destruct (falsy (split " " authHeader !! 1%nat)); [done|].
  rewrite Hup, Hcache.
  destruct (redis_up w2); [|done].
  destruct (negb (falsy _)); [done|].
  destruct (jwt_verify jwt _ (JWT_SECRET env) now) as [error|decoded]; [done|].
  unfold ret. world_simpl. rewrite Husers.
  destruct (users w2 !! jp_id decoded) as [ud|].
  - cbn. by rewrite Hset.
  - by destruct (castsToObjectId (jp_id decoded)).
Qed.

(** X16. [authenticate] passes a request on exactly when its header
    carries a bearer token that has no live revocation entry, verifies
    and names an existing account, with Redis reachable. The identity
    it attaches is the account read from the datastore, not the
    token's payload: the role attached is the stored one, whatever
    role the token carries. It costs one cache read and one datastore
    read and writes nothing. *)
Theorem authenticate_passes_iff_verified
    (req req' : Request) (now : Z) (w w' : World) :
  authenticate jwt env req now w = (Next req', w') <->
  exists tok decoded ud,
    authenticates jwt env req now w tok decoded ud
    /\ user req' = Some (toResponseUser ud)
    /\ (role <$> user req') = Some (ud_role ud)
    /\ token req' = Some tok
    /\ req' = set_user_token (toResponseUser ud) tok req
    /\ w' = emit (DbRead "users" (jp_id decoded))
              (emit (CacheGet ("blacklist:" +:+ tok)) w).
Proof.
  split.
  - intros H. apply authenticate_next_inv in H as (tok & decoded & ud & Hauth & -> & ->).
    exists tok, decoded, ud. done.
  - intros (tok & decoded & ud & Hauth & _ & _ & _ & -> & ->).
    by apply authenticate_run_ok.
Qed.

(** X17. A request without a header, with a header that does not start
    with ["Bearer "], or with nothing after it, is answered 401 before
    the cache or the datastore is asked anything. *)
Theorem authenticate_without_token_touches_nothing (req : Request) (now : Z) (w : World) :
  (forall authHeader, header_Authorization req = Some authHeader ->
     String.prefix "Bearer " authHeader = false
     \/ falsy (split " " authHeader !! 1%nat) = true) ->
  snd (authenticate jwt env req now w) = w
  /\ exists message, fst (authenticate jwt env req now w) = Respond (json 401 message).
Proof.
  intros Hbad.
  unfold authenticate, try_catch, authenticate_body, ret.
  destruct (header_Authorization req) as [authHeader|]; [|eauto].
  destruct (String.prefix "Bearer " authHeader) eqn:Hpre; [|eauto]. cbn [negb].
  destruct (Hbad authHeader eq_refl) as [Hp|Hf]; [congruence|].
  rewrite Hf. eauto.
Qed.

(** X18. With Redis unreachable, a request that presents a token is
    never passed on, whatever the token: the revocation lookup rejects,
    and the answer is 500, not 401; the token is not verified and the
    datastore is not read. *)
Theorem authenticate_cache_down_is_500
    (req : Request) (now : Z) (w : World) (authHeader tok : string) :
  header_Authorization req = Some authHeader ->
  String.prefix "Bearer " authHeader = true ->
  split " " authHeader !! 1%nat = Some tok ->
  tok <> "" ->
  redis_up w = false ->
  authenticate jwt env req now w = (Respond (json 500 "Authentication failed"), w).
Proof.
  intros Hh Hpre Hsplit Hne Hup.
  unfold authenticate, try_catch, authenticate_body, bind, ret, redis_get.
  rewrite Hh, Hpre, Hsplit. cbn [negb falsy tpl default from_option id].
  by rewrite (bool_decide_eq_false_2 _ Hne), Hup.
Qed.

(** X19. The project router is mounted behind [authenticate] and applies
    [authenticate] again itself. The second run adds nothing to the
    first: the first run writes nothing, and once it has passed a
    request on, the second, whenever it reads the clock, answers what a
    single run at that moment would have answered to the request as it
    came. A token that expires between the two runs is therefore
    turned away by the second. *)
Theorem authenticate_twice_is_once (req req' : Request) (now now' : Z) (w w' : World) :
  authenticate jwt env req now w = (Next req', w') ->
  fst (authenticate jwt env req' now' w') = fst (authenticate jwt env req now' w)
  /\ redis_up w' = redis_up w /\ cache w' = cache w /\ users w' = users w.
Proof.
  intros H. apply authenticate_next_inv in H as (tok & decoded & ud & Hauth & -> & ->).
  split; [|done]. by apply authenticate_answer_ext.
Qed.
End AuthenticateProperties.

(** The theorems on runs: the member presents the access token after
    logging in; an anonymous request; the same token while Redis is
    unreachable; the token presented to the second [authenticate] just
    as it expires. *)
Lemma authenticate_passes_witness :
  fst (authenticate Scenario.jwt Scenario.env
         (Scenario.bearer "GET" "/api/projects" Scenario.access_token)
         Scenario.now0 Scenario.world_logged_in)
  = Next (set_user_token Scenario.subject Scenario.access_token
            (Scenario.bearer "GET" "/api/projects" Scenario.access_token)).
Proof.
  set (req := Scenario.bearer "GET" "/api/projects" Scenario.access_token).
  set (w' := emit (DbRead "users" Scenario.subject_id)
               (emit (CacheGet ("blacklist:" +:+ Scenario.access_token))
                  Scenario.world_logged_in)).
  rewrite (proj2 (authenticate_passes_iff_verified Scenario.jwt Scenario.env req
                    (set_user_token Scenario.subject Scenario.access_token req)
                    Scenario.now0 Scenario.world_logged_in w')); [reflexivity|].
  exists Scenario.access_token,
    (mkPayload Scenario.subject_id (Some member) 1700000000 1700000900),
    Scenario.member_doc.
  split; [|done].
  exists ("Bearer " +:+ Scenario.access_token). repeat split. discriminate.
Defined.

Lemma authenticate_without_token_witness :
  snd (authenticate Scenario.jwt Scenario.env Scenario.anonymous Scenario.now0
         Scenario.world0) = Scenario.world0
  /\ exists message,
       fst (authenticate Scenario.jwt Scenario.env Scenario.anonymous Scenario.now0
              Scenario.world0) = Respond (json 401 message).
Proof.
  apply (authenticate_without_token_touches_nothing Scenario.jwt Scenario.env
           Scenario.anonymous Scenario.now0 Scenario.world0).
  intros authHeader H. discriminate H.
Defined.

Lemma authenticate_cache_down_witness :
  authenticate Scenario.jwt Scenario.env
    (Scenario.bearer "GET" "/api/projects" Scenario.access_token)
    Scenario.now0 Scenario.world_down
  = (Respond (json 500 "Authentication failed"), Scenario.world_down).
Proof.
  apply (authenticate_cache_down_is_500 Scenario.jwt Scenario.env
           (Scenario.bearer "GET" "/api/projects" Scenario.access_token)
           Scenario.now0 Scenario.world_down
           ("Bearer " +:+ Scenario.access_token) Scenario.access_token).
  - reflexivity.
  - reflexivity.
  - reflexivity.
  - discriminate.
  - reflexivity.
Defined.

Lemma authenticate_twice_witness :
  let first := authenticate Scenario.jwt Scenario.env
                 (Scenario.bearer "GET" "/api/projects" Scenario.access_token)
                 (Scenario.now0 + 899999) Scenario.world_logged_in in
  exists req',
    fst first = Next req'
    /\ fst (authenticate Scenario.jwt Scenario.env req' (Scenario.now0 + 900000)
              (snd first))
       = Respond (json 401 "Session expired. Please login again").
Proof.
  intros first.
  set (req' := set_user_token Scenario.subject Scenario.access_token
                 (Scenario.bearer "GET" "/api/projects" Scenario.access_token)).
  exists req'. split; [reflexivity|].
  destruct (authenticate_twice_is_once Scenario.jwt Scenario.env
              (Scenario.bearer "GET" "/api/projects" Scenario.access_token) req'
              (Scenario.now0 + 899999) (Scenario.now0 + 900000)
              Scenario.world_logged_in (snd first) eq_refl)
    as (Hsecond & _).
  rewrite Hsecond. reflexivity.
Defined.

(** ** Logging out *)

Section LogoutProperties.
Context (jwt : Jsonwebtoken) (env : Env).

(** X20. Logging out with a token that has already expired writes no
    revocation entry: the registry is left as it was under that token.
    The logout still answers 200 and deletes the refresh record and the
    cached user. *)
Theorem logout_expired_token_writes_no_entry
    (req : Request) (now : Z) (w : World) (tok : string) (u : IUserResponse)
    (decoded : JwtPayload) :
  token req = Some tok ->
  tok <> "" ->
  user req = Some u ->
  redis_up w = true ->
  jwt_decode jwt tok = Some decoded ->
  exp decoded <= now / 1000 ->
  let r := logout jwt req now w in
  fst r = json 200 "Logged out successfully"
  /\ cache (snd r) !! ("blacklist:" +:+ tok) = cache w !! ("blacklist:" +:+ tok)
  /\ cache_writes (log (snd r)) = cache_writes (log w)
  /\ cache (snd r) !! ("refresh:" +:+ _id u) = None
  /\ cache (snd r) !! ("user:" +:+ _id u) = None.
Proof.
  intros Htok Hne Hu Hup Hdec Hexp r. subst r.
  unfold logout, try_catch, logout_body, bind, ret, redis_set, redis_del.
  rewrite Htok, Hu, (bool_decide_eq_false_2 _ Hne), Hdec.
  destruct (decide (exp decoded - now / 1000 > 0)) as [Hgt|_]; [lia|].
  rewrite Hup. world_simpl. rewrite Hup. cbn [fst snd]. world_simpl.
  split; [done|]. split.
  { rewrite !lookup_delete_ne; [done | |]; cbn; discriminate. }
  split; [done|]. split.
  - rewrite lookup_delete_ne by (cbn; discriminate). apply lookup_delete_eq.
  - apply lookup_delete_eq.
Qed.

(** X21. [logout] does nothing at all unless it finds a user, a
    non-empty token and a payload in it: without user or token it
    answers 401, and on a token that does not decode it answers 500; in
    both cases the stores are untouched, so the refresh record of the
    session stays in the registry. *)
Theorem logout_needs_identity_and_payload (req : Request) (now : Z) (w : World) :
  (falsy (token req) = true \/ user req = None ->
   logout jwt req now w = (json 401 "Not authenticated", w))
  /\ (forall tok u, token req = Some tok -> tok <> "" -> user req = Some u ->
      jwt_decode jwt tok = None ->
      logout jwt req now w = (json 500 "Failed to logout", w)).
Proof.
  unfold logout, try_catch, logout_body, ret, throw. split.
  - intros [Hf|Hu].
    + destruct (token req) as [tok|]; [|done]. cbn in Hf. rewrite Hf.
      by destruct (user req).
    + rewrite Hu. by destruct (token req).
  - intros tok u -> Hne -> Hdec. by rewrite (bool_decide_eq_false_2 _ Hne), Hdec.
Qed.
End LogoutProperties.

Lemma logout_expired_witness :
  let req := mkRequest "POST" "/api/auth/logout" None "" "" "" "" "" "" ""
               (Some Scenario.subject) (Some Scenario.expired_token)
               None None None None in
  let r := logout Scenario.jwt req Scenario.now0 Scenario.world_logged_in in
  fst r = json 200 "Logged out successfully"
  /\ cache (snd r) !! ("blacklist:" +:+ Scenario.expired_token) = None
  /\ cache (snd r) !! ("refresh:" +:+ Scenario.subject_id) = None.
Proof.
  intros req r.
  destruct (logout_expired_token_writes_no_entry Scenario.jwt req Scenario.now0
              Scenario.world_logged_in Scenario.expired_token Scenario.subject
              (mkPayload Scenario.subject_id (Some member) (1700000000 - 960)
                 (1700000000 - 60))
              eq_refl ltac:(discriminate) eq_refl eq_refl eq_refl
              ltac:(vm_compute; discriminate))
    as (Hres & Hbl & _ & Hrefresh & _).
  split; [exact Hres|]. split; [|exact Hrefresh].
  fold r in Hbl. rewrite Hbl. reflexivity.
Defined.

Lemma logout_needs_identity_witness :
  logout Scenario.jwt Scenario.anonymous Scenario.now0 Scenario.world_logged_in
  = (json 401 "Not authenticated", Scenario.world_logged_in)
  /\ logout Scenario.jwt
       (set_user_token Scenario.subject "garbage" Scenario.anonymous)
       Scenario.now0 Scenario.world_logged_in
     = (json 500 "Failed to logout", Scenario.world_logged_in).
Proof.
  split.
  - apply (proj1 (logout_needs_identity_and_payload Scenario.jwt Scenario.anonymous
                    Scenario.now0 Scenario.world_logged_in)).
    left. reflexivity.
  - apply (proj2 (logout_needs_identity_and_payload Scenario.jwt
                    (set_user_token Scenario.subject "garbage" Scenario.anonymous)
                    Scenario.now0 Scenario.world_logged_in) "garbage" Scenario.subject).
    + reflexivity.
    + discriminate.
    + reflexivity.
    + reflexivity.
Defined.

(** ** Issuing tokens *)

Section IssueProperties.
Context (jwt : Jsonwebtoken) (env : Env).

Lemma generateAuthTokens_run (user : UserDoc) (now : Z) (w : World) :
  ud_id user <> "" ->
  redis_up w = true ->
  let refreshToken :=
    jwt_sign jwt (ud_id user, None) (JWT_REFRESH_SECRET env) 604800 now in
  generateAuthTokens jwt env user now w
  = (Ok (mkAuthTokens
           (jwt_sign jwt (ud_id user, Some (ud_role user)) (JWT_SECRET env) 900 now)
           refreshToken),
     emit (CacheSet ("refresh:" +:+ ud_id user) refreshToken 604800)
       (with_cache (<["refresh:" +:+ ud_id user := (refreshToken, now + 604800 * 1000)]>
                      (cache w)) w)).
Proof.
  intros Hid Hup. cbn zeta. unfold generateAuthTokens.
  rewrite (bool_decide_eq_false_2 _ Hid). unfold bind, redis_set, ret.
  by rewrite Hup.
Qed.

(** X22. The registry holds at most one refresh token per subject:
    when tokens are issued to the same user twice, the record of the
    first issue is overwritten by the second, and no other key of the
    cache changes. *)
Theorem generateAuthTokens_keeps_one_record
    (user : UserDoc) (now now' : Z) (w : World) :
  ud_id user <> "" ->
  redis_up w = true ->
  let w1 := snd (generateAuthTokens jwt env user now w) in
  let second := generateAuthTokens jwt env user now' w1 in
  exists tokens,
    fst second = Ok tokens
    /\ cache (snd second) !! ("refresh:" +:+ ud_id user)
       = Some (refreshToken tokens, now' + 604800 * 1000)
    /\ forall key, key <> "refresh:" +:+ ud_id user ->
         cache (snd second) !! key = cache w !! key.
Proof.
  intros Hid Hup w1 second. subst second w1.
  rewrite (generateAuthTokens_run user now w Hid Hup). cbn [snd].
  rewrite generateAuthTokens_run by done. cbn [fst snd]. world_simpl.
  eexists. split; [reflexivity|]. split.
  - cbn. apply lookup_insert_eq.
  - intros key Hkey. by rewrite !lookup_insert_ne.
Qed.

(** X23. [generateAuthTokens] issues nothing it cannot register: for a
    user without an id it throws before signing, and with Redis
    unreachable the [set] of the refresh record rejects; either way no
    token pair is returned and the stores are untouched. *)
Theorem generateAuthTokens_fails_without_registry (user : UserDoc) (now : Z) (w : World) :
  (ud_id user = "" ->
   generateAuthTokens jwt env user now w
   = (Throw (Error "User ID is required for token generation"), w))
  /\ (ud_id user <> "" -> redis_up w = false ->
      generateAuthTokens jwt env user now w = (Throw RedisError, w)).
Proof.
  unfold generateAuthTokens. split.
  - intros ->. reflexivity.
  - intros Hid Hup. rewrite (bool_decide_eq_false_2 _ Hid).
    unfold bind, redis_set. by rewrite Hup.
Qed.
End IssueProperties.

Lemma generateAuthTokens_one_record_witness :
  let w1 := snd (generateAuthTokens Scenario.jwt Scenario.env Scenario.member_doc
                   Scenario.now0 Scenario.world0) in
  let second := generateAuthTokens Scenario.jwt Scenario.env Scenario.member_doc
                  (Scenario.now0 + 5000) w1 in
  exists tokens,
    fst second = Ok tokens
    /\ cache (snd second) !! ("refresh:" +:+ Scenario.subject_id)
       = Some (refreshToken tokens, Scenario.now0 + 5000 + 604800 * 1000).
Proof.
  intros w1 second.
  destruct (generateAuthTokens_keeps_one_record Scenario.jwt Scenario.env
              Scenario.member_doc Scenario.now0 (Scenario.now0 + 5000) Scenario.world0
              ltac:(discriminate) eq_refl) as (tokens & Hok & Hrec & _).
  exists tokens. split; [exact Hok | exact Hrec].
Defined.

Lemma generateAuthTokens_fails_witness :
  generateAuthTokens Scenario.jwt Scenario.env Scenario.member_doc Scenario.now0
    Scenario.world_down
  = (Throw RedisError, Scenario.world_down).
Proof.
  apply (proj2 (generateAuthTokens_fails_without_registry Scenario.jwt Scenario.env
                  Scenario.member_doc Scenario.now0 Scenario.world_down)).
  - discriminate.
  - reflexivity.
Defined.

(** ** Logging in *)

Lemma find_user_by_email_None (w : World) (email : string) :
  (forall id ud, users w !! id = Some ud -> ud_email ud <> email) ->
  find_user_by_email w email = None.
Proof.
  intros Hnone. unfold find_user_by_email.
  destruct (list_find _ _) as [[i [id ud]]|] eqn:Hfind; [|reflexivity].
  apply list_find_Some in Hfind as (Hlook & Hemail & _).
  apply list_elem_of_lookup_2 in Hlook. apply elem_of_map_to_list in Hlook.
  cbn in Hemail. by destruct (Hnone id ud Hlook).
Qed.

Section LoginProperties.
Context (jwt : Jsonwebtoken) (env : Env) (libs : AuthLibs).

(** X24. A login with an email that no account has and a login with a
    wrong password cannot be told apart: both are answered 401 with
    the same message, after the same single datastore read, and
    neither touches the cache. *)
Theorem login_rejections_are_indistinguishable (body : LoginBody) (now : Z) (w : World) :
  lb_email body <> "" ->
  lb_password body <> "" ->
  (forall id ud, users w !! id = Some ud -> ud_email ud <> lb_email body)
  \/ (exists ud, find_user_by_email w (lb_email body) = Some ud
                 /\ bcrypt_compare libs (lb_password body) (ud_password ud) = false) ->
  login jwt env libs body now w
  = (mkAuthResponse 401 (AuthMsg "Invalid credentials"),
     emit (DbRead "users" (lb_email body)) w).
Proof.
  intros He Hp Hbad.
  unfold login, try_catch, login_body, bind, ret, User_findOne_email.
  rewrite (bool_decide_eq_false_2 _ He), (bool_decide_eq_false_2 _ Hp). cbn [orb].
  destruct Hbad as [Hnone|(ud & Hfind & Hcmp)].
  - by rewrite (find_user_by_email_None w _ Hnone).
  - by rewrite Hfind, Hcmp.
Qed.

(** [Document] is bound to nothing where [toUserResponse] runs. *)
Lemma toUserResponse_throws (user : UserDoc) :
  toUserResponse user = inl (ReferenceError "Document is not defined").
Proof. reflexivity. Qed.

(** X25. No login is ever answered with a session. Whatever the body,
    the clock and the stores, [login] answers 400, 401 or 500 with a
    message; it writes nothing to the datastore and never caches an
    account. *)
Theorem login_never_issues_session (body : LoginBody) (now : Z) (w : World) :
  let r := login jwt env libs body now w in
  (exists message, auth_body (fst r) = AuthMsg message)
  /\ (auth_status (fst r) = 400 \/ auth_status (fst r) = 401
      \/ auth_status (fst r) = 500)
  /\ users (snd r) = users w
  /\ forall id, cache (snd r) !! ("user:" +:+ id) = cache w !! ("user:" +:+ id).
Proof.
  cbn zeta.
  unfold login, try_catch, login_body, bind, ret, User_findOne_email.
  destruct (bool_decide (lb_email body = "") || bool_decide (lb_password body = ""));
    [cbn; eauto 10|].
  destruct (find_user_by_email w (lb_email body)) as [ud|]; [|cbn; eauto 10].
  destruct (negb (bcrypt_compare libs (lb_password body) (ud_password ud)));
    [cbn; eauto 10|].
  unfold generateAuthTokens, bind, throw, ret, redis_set.
  destruct (bool_decide (ud_id ud = "")); [cbn; eauto 10|]. world_simpl.
  destruct (redis_up w); [|cbn; eauto 10].
  rewrite toUserResponse_throws. unfold lift_throwing, throw. cbn [fst snd].
  world_simpl. cbn [auth_body auth_status].
  split; [eauto|]. split; [auto|]. split; [done|].
  intros id. by rewrite lookup_insert_ne by (cbn; discriminate).
Qed.

(** X26. [login] registers the refresh token before it builds its
    answer. A login with the right password is answered 500, because
    [toUserResponse] throws; yet the refresh token of the session that
    was never handed out is in the registry, for 7 days. The account is
    not cached. *)
Theorem login_registers_before_responding
    (body : LoginBody) (now : Z) (w : World) (ud : UserDoc) :
  lb_email body <> "" ->
  lb_password body <> "" ->
  find_user_by_email w (lb_email body) = Some ud ->
  bcrypt_compare libs (lb_password body) (ud_password ud) = true ->
  ud_id ud <> "" ->
  redis_up w = true ->
  let r := login jwt env libs body now w in
  fst r = mkAuthResponse 500 (AuthMsg "Failed to login")
  /\ cache (snd r) !! ("refresh:" +:+ ud_id ud)
     = Some (jwt_sign jwt (ud_id ud, None) (JWT_REFRESH_SECRET env) 604800 now,
             now + 604800 * 1000)
  /\ cache (snd r) !! ("user:" +:+ ud_id ud) = cache w !! ("user:" +:+ ud_id ud).
Proof.
  intros He Hp Hfind Hcmp Hid Hup r. subst r.
  unfold login, try_catch, login_body, bind, ret, User_findOne_email.
  rewrite (bool_decide_eq_false_2 _ He), (bool_decide_eq_false_2 _ Hp). cbn [orb].
  rewrite Hfind, Hcmp. cbn [negb].
  rewrite generateAuthTokens_run by done. rewrite toUserResponse_throws.
  unfold lift_throwing, throw. cbn [fst snd]. world_simpl.
  split; [done|]. split; [apply lookup_insert_eq|].
  by rewrite lookup_insert_ne by (cbn; discriminate).
Qed.
End LoginProperties.

(** The theorems on runs: the member logs in with a wrong password, then
    with the right one, and presents the access token a second later. *)
Lemma login_rejection_witness :
  login Scenario.jwt Scenario.env Cases.libs
    (mkLoginBody "uma@example.org" "olga") Scenario.now0 Scenario.world0
  = (mkAuthResponse 401 (AuthMsg "Invalid credentials"),
     emit (DbRead "users" "uma@example.org") Scenario.world0).
Proof.
  apply (login_rejections_are_indistinguishable Scenario.jwt Scenario.env Cases.libs
           (mkLoginBody "uma@example.org" "olga") Scenario.now0 Scenario.world0).
  - discriminate.
  - discriminate.
  - right. exists Scenario.member_doc. split; reflexivity.
Defined.

Lemma login_registers_witness :
  let r := login Scenario.jwt Scenario.env Cases.libs
             (mkLoginBody "uma@example.org" "uma") Scenario.now0 Scenario.world0 in
  fst r = mkAuthResponse 500 (AuthMsg "Failed to login")
  /\ cache (snd r) !! ("refresh:" +:+ Scenario.subject_id)
     = Some (Scenario.refresh_token, Scenario.now0 + 604800 * 1000).
Proof.
  intros r.
  destruct (login_registers_before_responding Scenario.jwt Scenario.env
              Cases.libs (mkLoginBody "uma@example.org" "uma") Scenario.now0
              Scenario.world0 Scenario.member_doc
              ltac:(discriminate) ltac:(discriminate) eq_refl eq_refl
              ltac:(discriminate) eq_refl)
    as (Hres & Hrefresh & _).
  split; [exact Hres | exact Hrefresh].
Defined.

(** ** What the cache does not hold, and what it keeps *)



(** X28. The task check never stores a decision. Whatever the request,
    the clock and the stores, it issues no [set] command and leaves the
    cache as it found it; and it lets a request through, unchanged,
    only on a ["true"] that is in the cache already, under its key. *)
Theorem validateTaskAccess_never_stores (req : Request) (now : Z) (w : World) :
  let r := validateTaskAccess req now w in
  cache (snd r) = cache w
  /\ cache_writes (log (snd r)) = cache_writes (log w)
  /\ (fst r = Next req /\ cache_lookup w (task_cacheKey req) now = Some "true"
      \/ exists res, fst r = Respond res).
Proof.
  cbn zeta. pose proof (check_runs task_resource req now w) as Hrun.
  cbn [check] in Hrun.
  destruct (validateTaskAccess req now w) as [o1 w1]. cbn [fst snd].
  inversion Hrun as [| | b Hu Hup Hc | b req' reads Hrt Hup Ht Hf Hne Hr
                     | res reads Hu Hup Ht Hf Hr Hst]; subst; try done.
  - eauto.
  - eauto.
  - split; [done|]. split; [done|]. destruct b; cbn in *; eauto.
  - split; [done|]. split; [|eauto].
    cbn. rewrite <- app_assoc. cbn.
    clear Hrun. induction reads as [|e reads IH]; [done|].
    cbn in Hr. apply andb_prop in Hr as [He Hr]. destruct e; try discriminate.
    cbn. by apply IH.
Qed.


